(** * tavily-mcp: the tool-calling contract and the response-validation layer

    A shallow embedding of [tavily_mcp_sse/schemas.py], [tavily_mcp_sse/server.py]
    and [tavily_mcp_sse/__init__.py].

    - Python values that cross the HTTP boundary are [json] values; a [dict]
      is an association list in insertion order.
    - [pydantic] collects every violation of a model into one
      [ValidationError]; [pydantic.result] keeps that list.
    - A coroutine is a function of the log of requests issued so far; it
      returns the new log and either the exception raised or the value
      returned. What [client.post] answers is given by a [network].
    - A registered tool is the function under the wrapper of the framework:
      the parameter contract of the [Field] annotations is checked before the
      function runs, and the value it returns has to be a dict or [None].
    - The module-level statements of server.py run over the state of the
      process: what was printed, which tools are registered, what is served. *)

From Stdlib Require Import ZArith List String Bool Lia SpecFloat.
Import ListNotations.
Local Open Scope string_scope.
Local Open Scope Z_scope.

(** ** Python values *)

(** A Python [float] is an IEEE 754 binary64 datum. *)
Definition pyfloat : Type := spec_float.

(** What [json.loads] (and so [response.json()]) can produce, and what
    [client.post(..., json=...)] serialises. *)
#[local] Set Warnings "-register-all".
Inductive json : Type :=
| JNull
| JBool (b : bool)
| JInt (z : Z)
| JFloat (f : pyfloat)
| JStr (s : string)
| JList (l : list json)
| JDict (d : list (string * json)).

(** [d.get(k)]: the value bound to [k], [None] when [k] is not a key. *)
Fixpoint dict_get {A : Type} (k : string) (d : list (string * A)) : option A :=
  match d with
  | [] => None
  | (k', v) :: d' => if String.eqb k k' then Some v else dict_get k d'
  end.

(** [list(d.keys())] *)
Definition keys {A : Type} (d : list (string * A)) : list string :=
  List.map fst d.

(** [x in l] for a list of strings (the members of a [Literal[...]]). *)
Definition str_in (x : string) (l : list string) : bool :=
  existsb (String.eqb x) l.

Definition json_of_option {A : Type} (f : A -> json) (o : option A) : json :=
  match o with
  | Some a => f a
  | None => JNull
  end.

Definition json_strs (l : list string) : json := JList (List.map JStr l).

(** ** pydantic: validation results and field validators *)

Module pydantic.

(** An item of an error location: a field name (or union member tag) or a
    list index. *)
Inductive loc_item : Type :=
| Key (name : string)
| Idx (i : nat).

(** One line of a [ValidationError]: pydantic's error type and location. *)
Record ErrorDetails : Type := mkError {
  err_type : string;
  err_loc : list loc_item
}.

(** The outcome of a validator: the validated value, or every violation. *)
Inductive result (A : Type) : Type :=
| Ok (a : A)
| Errors (errs : list ErrorDetails).
Arguments Ok {A} a.
Arguments Errors {A} errs.

Definition fail {A : Type} (ty : string) : result A :=
  Errors [mkError ty []].

Definition under (i : loc_item) (e : ErrorDetails) : ErrorDetails :=
  mkError (err_type e) (i :: err_loc e).

(** Errors found inside field (or index) [i] are reported below [i]. *)
Definition at_loc {A : Type} (i : loc_item) (r : result A) : result A :=
  match r with
  | Ok a => Ok a
  | Errors errs => Errors (List.map (under i) errs)
  end.

Definition fmap {A B : Type} (f : A -> B) (r : result A) : result B :=
  match r with
  | Ok a => Ok (f a)
  | Errors errs => Errors errs
  end.

(** Fields are validated independently and all errors are kept, in field
    order. *)
Definition ap {A B : Type} (rf : result (A -> B)) (ra : result A) : result B :=
  match rf, ra with
  | Ok f, Ok a => Ok (f a)
  | Ok _, Errors ea => Errors ea
  | Errors ef, Ok _ => Errors ef
  | Errors ef, Errors ea => Errors (ef ++ ea)
  end.

Definition errors_of {A : Type} (r : result A) : list ErrorDetails :=
  match r with
  | Ok _ => []
  | Errors errs => errs
  end.

Declare Scope pydantic_scope.
Delimit Scope pydantic_scope with pydantic.
Notation "f <*> a" := (ap f a) (at level 50, left associativity) : pydantic_scope.

(** A parameter of a tool without a default: left out, it is the error
    [missing_argument]. *)
Definition arg {A B : Type} (name : string) (v : A -> result B)
           (o : option A) : result B :=
  match o with
  | Some x => at_loc (Key name) (v x)
  | None => Errors [mkError "missing_argument" [Key name]]
  end.

(** A parameter of a tool with a default: left out, it is the default,
    which is not validated. *)
Definition arg_default {A B : Type} (name : string) (v : A -> result B)
           (dflt : B) (o : option A) : result B :=
  match o with
  | Some x => at_loc (Key name) (v x)
  | None => Ok dflt
  end.

(** A field of a model without a default, looked up in the validated
    [dict]: absent, it is the error [missing]. *)
Definition required {A V : Type} (name : string) (v : V -> result A)
           (d : list (string * V)) : result A :=
  match dict_get name d with
  | Some x => at_loc (Key name) (v x)
  | None => Errors [mkError "missing" [Key name]]
  end.

(** A field of a model with a default. *)
Definition with_default {A V : Type} (name : string) (v : V -> result A)
           (dflt : A) (d : list (string * V)) : result A :=
  arg_default name v dflt (dict_get name d).

(** [T | None] *)
Definition nullable {A : Type} (v : json -> result A) (j : json) : result (option A) :=
  match j with
  | JNull => Ok None
  | _ => fmap Some (v j)
  end.

(** Validates the items of a list from index [i] on. *)
Fixpoint items_from {A V : Type} (v : V -> result A) (i : nat) (l : list V)
  : result (list A) :=
  match l with
  | [] => Ok []
  | x :: l' => (fmap cons (at_loc (Idx i) (v x)) <*> items_from v (S i) l')%pydantic
  end.

(** [list[T]] *)
Definition list_of {A : Type} (v : json -> result A) (j : json) : result (list A) :=
  match j with
  | JList l => items_from v 0%nat l
  | _ => fail "list_type"
  end.

(** [str]: numbers are not coerced to strings. *)
Definition str (j : json) : result string :=
  match j with
  | JStr s => Ok s
  | _ => fail "string_type"
  end.

(** [dict[str, Any]]: every key of a parsed JSON object is a [str] and
    [Any] accepts every value. *)
Definition dict_str_any (j : json) : result (list (string * json)) :=
  match j with
  | JDict d => Ok d
  | _ => fail "dict_type"
  end.

(** What pydantic's [float] validator does with a value that is not a
    [float] already depends on the pydantic version and on Python's number
    parsing; it is a parameter of the development. [None] is a rejection. *)
Class FloatCoercion : Type := {
  float_of_int : Z -> option pyfloat;
  float_of_bool : bool -> option pyfloat;
  float_of_str : string -> option pyfloat
}.

Definition coerced (ty : string) (o : option pyfloat) : result pyfloat :=
  match o with
  | Some f => Ok f
  | None => fail ty
  end.

(** [float] *)
Definition float `{FC : FloatCoercion} (j : json) : result pyfloat :=
  match j with
  | JFloat f => Ok f
  | JInt z => coerced "float_type" (float_of_int z)
  | JBool b => coerced "float_type" (float_of_bool b)
  | JStr s => coerced "float_parsing" (float_of_str s)
  | _ => fail "float_type"
  end.

(** [Literal[...]] over strings. *)
Definition literal (members : list string) (s : string) : result string :=
  if str_in s members then Ok s else fail "literal_error".

(** [Field(ge=lo)] *)
Definition ge (lo : Z) (n : Z) : result Z :=
  if lo <=? n then Ok n else fail "greater_than_equal".

(** [Field(ge=lo, le=hi)]: a value violates at most one of the two. *)
Definition ge_le (lo hi : Z) (n : Z) : result Z :=
  if negb (lo <=? n) then fail "greater_than_equal"
  else if negb (n <=? hi) then fail "less_than_equal"
  else Ok n.

Definition any {A : Type} (a : A) : result A := Ok a.

End pydantic.

(** ** schemas.py *)

Module schemas.
Import pydantic.
Local Open Scope pydantic_scope.

(** A model is validated from a [dict]; the keys that are not declared
    fields are ignored. *)
Definition model {A : Type} (fields : list (string * json) -> result A)
           (j : json) : result A :=
  match j with
  | JDict d => fields d
  | _ => fail "model_type"
  end.

Module SearchImage.
Record t : Type := mk {
  url : string;
  description : option string
}.

Definition field_names : list string := ["url"; "description"].

Definition model_validate : json -> result t :=
  model (fun d =>
    Ok mk
      <*> required "url" str d
      <*> with_default "description" (nullable str) None d).

Definition model_dump (m : t) : json :=
  JDict [("url", JStr (url m));
         ("description", json_of_option JStr (description m))].
End SearchImage.

Module SearchResult.
Record t : Type := mk {
  title : string;
  url : string;
  content : string;
  score : pyfloat;
  published_date : option string;
  raw_content : option string
}.

Definition field_names : list string :=
  ["title"; "url"; "content"; "score"; "published_date"; "raw_content"].

Section Validate.
Context `{FC : FloatCoercion}.

Definition model_validate : json -> result t :=
  model (fun d =>
    Ok mk
      <*> required "title" str d
      <*> required "url" str d
      <*> required "content" str d
      <*> required "score" float d
      <*> with_default "published_date" (nullable str) None d
      <*> with_default "raw_content" (nullable str) None d).
End Validate.

Definition model_dump (m : t) : json :=
  JDict [("title", JStr (title m));
         ("url", JStr (url m));
         ("content", JStr (content m));
         ("score", JFloat (score m));
         ("published_date", json_of_option JStr (published_date m));
         ("raw_content", json_of_option JStr (raw_content m))].
End SearchResult.

(** [str | SearchImage]: a string is taken as it is, a dict is validated as
    a [SearchImage]; when no member accepts the value, the errors of every
    member are reported under the member's name. *)
Definition str_or_SearchImage (j : json) : result (string + SearchImage.t) :=
  match j with
  | JStr s => Ok (inl s)
  | _ =>
    match SearchImage.model_validate j with
    | Ok m => Ok (inr m)
    | Errors errs =>
      Errors (mkError "string_type" [Key "str"]
                :: List.map (under (Key "SearchImage")) errs)
    end
  end.

Definition dump_str_or_SearchImage (x : string + SearchImage.t) : json :=
  match x with
  | inl s => JStr s
  | inr m => SearchImage.model_dump m
  end.

Module TavilySearchResponse.
Record t : Type := mk {
  query : string;
  answer : option string;
  images : option (list (string + SearchImage.t));
  results : list SearchResult.t;
  response_time : pyfloat;
  auto_parameters : option (list (string * json))
}.

Definition field_names : list string :=
  ["query"; "answer"; "images"; "results"; "response_time"; "auto_parameters"].

(** The fields declared with the default [None]. *)
Definition optional_fields : list string :=
  ["answer"; "images"; "auto_parameters"].

Section Validate.
Context `{FC : FloatCoercion}.

Definition model_validate : json -> result t :=
  model (fun d =>
    Ok mk
      <*> required "query" str d
      <*> with_default "answer" (nullable str) None d
      <*> with_default "images" (nullable (list_of str_or_SearchImage)) None d
      <*> required "results" (list_of SearchResult.model_validate) d
      <*> required "response_time" float d
      <*> with_default "auto_parameters" (nullable dict_str_any) None d).
End Validate.

Definition model_dump (m : t) : json :=
  JDict [("query", JStr (query m));
         ("answer", json_of_option JStr (answer m));
         ("images",
          json_of_option
            (fun l => JList (List.map dump_str_or_SearchImage l)) (images m));
         ("results", JList (List.map SearchResult.model_dump (results m)));
         ("response_time", JFloat (response_time m));
         ("auto_parameters", json_of_option JDict (auto_parameters m))].
End TavilySearchResponse.

Module ExtractResult.
Record t : Type := mk {
  url : string;
  raw_content : string;
  images : list string
}.

Definition model_validate : json -> result t :=
  model (fun d =>
    Ok mk
      <*> required "url" str d
      <*> required "raw_content" str d
      <*> required "images" (list_of str) d).

Definition model_dump (m : t) : json :=
  JDict [("url", JStr (url m));
         ("raw_content", JStr (raw_content m));
         ("images", json_strs (images m))].
End ExtractResult.

Module ExtractFailedResult.
Record t : Type := mk {
  url : string;
  error : string
}.

Definition model_validate : json -> result t :=
  model (fun d =>
    Ok mk
      <*> required "url" str d
      <*> required "error" str d).

Definition model_dump (m : t) : json :=
  JDict [("url", JStr (url m)); ("error", JStr (error m))].
End ExtractFailedResult.

Module TavilyExtractResponse.
Record t : Type := mk {
  results : list ExtractResult.t;
  failed_results : list ExtractFailedResult.t;
  response_time : pyfloat
}.

Definition field_names : list string :=
  ["results"; "failed_results"; "response_time"].

Section Validate.
Context `{FC : FloatCoercion}.

Definition model_validate : json -> result t :=
  model (fun d =>
    Ok mk
      <*> required "results" (list_of ExtractResult.model_validate) d
      <*> required "failed_results" (list_of ExtractFailedResult.model_validate) d
      <*> required "response_time" float d).
End Validate.

Definition model_dump (m : t) : json :=
  JDict [("results", JList (List.map ExtractResult.model_dump (results m)));
         ("failed_results",
          JList (List.map ExtractFailedResult.model_dump (failed_results m)));
         ("response_time", JFloat (response_time m))].
End TavilyExtractResponse.

Module CrawlResult.
Record t : Type := mk {
  url : string;
  raw_content : string
}.

Definition model_validate : json -> result t :=
  model (fun d =>
    Ok mk
      <*> required "url" str d
      <*> required "raw_content" str d).

Definition model_dump (m : t) : json :=
  JDict [("url", JStr (url m)); ("raw_content", JStr (raw_content m))].
End CrawlResult.

Module TavilyCrawlResponse.
Record t : Type := mk {
  base_url : string;
  results : list CrawlResult.t;
  response_time : pyfloat
}.

Definition field_names : list string :=
  ["base_url"; "results"; "response_time"].

Section Validate.
Context `{FC : FloatCoercion}.

Definition model_validate : json -> result t :=
  model (fun d =>
    Ok mk
      <*> required "base_url" str d
      <*> required "results" (list_of CrawlResult.model_validate) d
      <*> required "response_time" float d).
End Validate.

Definition model_dump (m : t) : json :=
  JDict [("base_url", JStr (base_url m));
         ("results", JList (List.map CrawlResult.model_dump (results m)));
         ("response_time", JFloat (response_time m))].
End TavilyCrawlResponse.

Module TavilyMapResponse.
Record t : Type := mk {
  base_url : string;
  results : list string;
  response_time : pyfloat
}.

Definition field_names : list string :=
  ["base_url"; "results"; "response_time"].

Section Validate.
Context `{FC : FloatCoercion}.

Definition model_validate : json -> result t :=
  model (fun d =>
    Ok mk
      <*> required "base_url" str d
      <*> required "results" (list_of str) d
      <*> required "response_time" float d).
End Validate.

Definition model_dump (m : t) : json :=
  JDict [("base_url", JStr (base_url m));
         ("results", json_strs (results m));
         ("response_time", JFloat (response_time m))].
End TavilyMapResponse.

End schemas.

(** ** Effects: state and exceptions *)

Module Eff.
(** A computation over a state [S] that returns an [A] or raises an [E]. *)
Definition t (S E A : Type) : Type := S -> S * (E + A).

Section Ops.
Context {S E : Type}.

Definition ret {A : Type} (a : A) : t S E A := fun s => (s, inr a).

Definition raise {A : Type} (e : E) : t S E A := fun s => (s, inl e).

Definition bind {A B : Type} (m : t S E A) (k : A -> t S E B) : t S E B :=
  fun s =>
    match m s with
    | (s', inr a) => k a s'
    | (s', inl e) => (s', inl e)
    end.

(** [try: m  except BaseException as e: h e] *)
Definition try_except {A : Type} (m : t S E A) (h : E -> t S E A) : t S E A :=
  fun s =>
    match m s with
    | (s', inr a) => (s', inr a)
    | (s', inl e) => h e s'
    end.

Definition modify (f : S -> S) : t S E unit := fun s => (f s, inr tt).
End Ops.

End Eff.

Declare Scope eff_scope.
Delimit Scope eff_scope with eff.
Notation "x <- m ;; k" := (Eff.bind m (fun x => k))
  (at level 100, m at next level, right associativity) : eff_scope.
Notation "m ;; k" := (Eff.bind m (fun _ => k))
  (at level 100, right associativity) : eff_scope.

(** ** httpx *)

Module httpx.
(** One [client.post(url, json=payload)] as the code issues it, with the
    headers the client was built with. The headers httpx adds of its own
    when it sends the request (Host, Content-Length and the like) are not
    part of the record. *)
Record Request : Type := mkRequest {
  method : string;
  url : string;
  client_headers : list (string * string);
  payload : json
}.

(** The bytes of a response body, as far as [response.json()] tells them
    apart: a JSON document, text that is not one, or bytes that are not
    text. *)
Inductive Content : Type :=
| Document (j : json)
| Malformed
| Undecodable.

Record Response : Type := mkResponse {
  status_code : Z;
  content : Content
}.

(** What [response.json()] returns, [None] when it raises. *)
Definition body (r : Response) : option json :=
  match content r with
  | Document j => Some j
  | _ => None
  end.

Definition is_success (r : Response) : bool :=
  (200 <=? status_code r) && (status_code r <=? 299).
End httpx.

(** The exceptions a tool call can end with. *)
Inductive exn : Type :=
| ValidationError (errors : list pydantic.ErrorDetails)
| ValueError (msg : string)
| KeyError (key : string)
| HTTPStatusError (response : httpx.Response)
| RequestError (msg : string)
| JSONDecodeError
| UnicodeDecodeError.

(** The upstream: for each request either a transport failure or a response. *)
Definition network : Type := httpx.Request -> string + httpx.Response.

(** A coroutine runs over the log of the requests issued so far. *)
Definition Coroutine (A : Type) : Type := Eff.t (list httpx.Request) exn A.

(** [d[k]] *)
Definition getitem {A : Type} (d : list (string * A)) (k : string) : Coroutine A :=
  match dict_get k d with
  | Some v => Eff.ret v
  | None => Eff.raise (KeyError k)
  end.

(** ** server.py and __init__.py *)

Module server.
Import pydantic.

(** *** Module level: configuration and tool registration *)

Record FastMCP : Type := mkFastMCP {
  name : string;
  port : Z;
  host : string;
  tools : list string
}.

(** What the process has done so far: what it printed, the server object
    with the tools registered on it, and the transport it serves on. *)
Record process : Type := mkProcess {
  stdout : list string;
  mcp_server : option FastMCP;
  serving : option string
}.

Definition started : process := mkProcess [] None None.

(** [SystemExit] with its exit code. *)
Record SystemExit : Type := mkSystemExit { code : Z }.

Definition Script (A : Type) : Type := Eff.t process SystemExit A.

Definition print (line : string) : Script unit :=
  Eff.modify (fun p => mkProcess (stdout p ++ [line]) (mcp_server p) (serving p)).

Definition sys_exit {A : Type} (c : Z) : Script A :=
  Eff.raise (mkSystemExit c).

(** [mcp_server = FastMCP(name, port=port, host=host)] *)
Definition new_FastMCP (n : string) (p : Z) (h : string) : Script unit :=
  Eff.modify (fun st =>
    mkProcess (stdout st) (Some (mkFastMCP n p h [])) (serving st)).

(** [@mcp_server.tool(name=n)] *)
Definition tool (n : string) : Script unit :=
  Eff.modify (fun st =>
    mkProcess (stdout st)
              (option_map
                 (fun srv => mkFastMCP (name srv) (port srv) (host srv)
                                       (tools srv ++ [n]))
                 (mcp_server st))
              (serving st)).

(** [await mcp_server.run_async(transport=t)]: from here on the registered
    tools are served. *)
Definition run_async (t : string) : Script unit :=
  Eff.modify (fun st => mkProcess (stdout st) (mcp_server st) (Some t)).

(** The tools a caller can invoke: those of a server that is being served. *)
Definition callable_tools (st : process) : list string :=
  match serving st, mcp_server st with
  | Some _, Some srv => tools srv
  | _, _ => []
  end.

Definition base_urls : list (string * string) :=
  [("search", "https://api.tavily.com/search");
   ("extract", "https://api.tavily.com/extract");
   ("crawl", "https://api.tavily.com/crawl");
   ("map", "https://api.tavily.com/map")].

Definition SearchDepthLiteral : list string := ["basic"; "advanced"].
Definition ExtractDepthLiteral : list string := ["basic"; "advanced"].
Definition TopicLiteral : list string := ["general"; "news"].
Definition TimeRangeLiteral : list string :=
  ["day"; "week"; "month"; "year"; "d"; "w"; "m"; "y"].
Definition CountryLiteral : list string :=
  [
   "afghanistan"; "albania"; "algeria"; "andorra"; "angola"; "argentina";
   "armenia"; "australia"; "austria"; "azerbaijan"; "bahamas"; "bahrain";
   "bangladesh"; "barbados"; "belarus"; "belgium"; "belize"; "benin";
   "bhutan"; "bolivia"; "bosnia and herzegovina"; "botswana"; "brazil";
   "brunei"; "bulgaria"; "burkina faso"; "burundi"; "cambodia"; "cameroon";
   "canada"; "cape verde"; "central african republic"; "chad"; "chile";
   "china"; "colombia"; "comoros"; "congo"; "costa rica"; "croatia";
   "cuba"; "cyprus"; "czech republic"; "denmark"; "djibouti";
   "dominican republic"; "ecuador"; "egypt"; "el salvador";
   "equatorial guinea"; "eritrea"; "estonia"; "ethiopia"; "fiji";
   "finland"; "france"; "gabon"; "gambia"; "georgia"; "germany"; "ghana";
   "greece"; "guatemala"; "guinea"; "haiti"; "honduras"; "hungary";
   "iceland"; "india"; "indonesia"; "iran"; "iraq"; "ireland"; "israel";
   "italy"; "jamaica"; "japan"; "jordan"; "kazakhstan"; "kenya"; "kuwait";
   "kyrgyzstan"; "latvia"; "lebanon"; "lesotho"; "liberia"; "libya";
   "liechtenstein"; "lithuania"; "luxembourg"; "madagascar"; "malawi";
   "malaysia"; "maldives"; "mali"; "malta"; "mauritania"; "mauritius";
   "mexico"; "moldova"; "monaco"; "mongolia"; "montenegro"; "morocco";
   "mozambique"; "myanmar"; "namibia"; "nepal"; "netherlands";
   "new zealand"; "nicaragua"; "niger"; "nigeria"; "north korea";
   "north macedonia"; "norway"; "oman"; "pakistan"; "panama";
   "papua new guinea"; "paraguay"; "peru"; "philippines"; "poland";
   "portugal"; "qatar"; "romania"; "russia"; "rwanda"; "saudi arabia";
   "senegal"; "serbia"; "singapore"; "slovakia"; "slovenia"; "somalia";
   "south africa"; "south korea"; "south sudan"; "spain"; "sri lanka";
   "sudan"; "sweden"; "switzerland"; "syria"; "taiwan"; "tajikistan";
   "tanzania"; "thailand"; "togo"; "trinidad and tobago"; "tunisia";
   "turkey"; "turkmenistan"; "uganda"; "ukraine"; "united arab emirates";
   "united kingdom"; "united states"; "uruguay"; "uzbekistan"; "venezuela";
   "vietnam"; "yemen"; "zambia"; "zimbabwe"
  ].
Definition FormatLiteral : list string := ["markdown"; "text"].
Definition CrawlCategoriesLiteral : list string :=
  ["Careers"; "Blog"; "Documentation"; "About"; "Pricing"; "Community";
   "Developers"; "Contact"; "Media"].

Section Startup.
Local Open Scope eff_scope.

(** [os.getenv] *)
Variable getenv : string -> option string.
(** Python's [int] on a [str]; [None] when it raises. *)
Variable int : string -> option Z.

Definition tavily_port : Z :=
  match getenv "TAVILY_MCP_PORT" with
  | None => 8000
  | Some TAVILY_MCP_PORT =>
    match int TAVILY_MCP_PORT with
    | Some n => n
    | None => 8000
    end
  end.

(** The module-level statements of server.py, in order; the value is
    [TAVILY_API_KEY]. *)
Definition import_server : Script string :=
  new_FastMCP "tavily-mcp" tavily_port "0.0.0.0" ;;
  TAVILY_API_KEY <-
    match getenv "TAVILY_API_KEY" with
    | None => print "Tavily API KEY Does not exist!! " ;; sys_exit (-1)
    | Some k => Eff.ret k
    end ;;
  tool "tavily-search" ;;
  tool "tavily-extract" ;;
  tool "tavily-crawl" ;;
  tool "tavily-map" ;;
  Eff.ret TAVILY_API_KEY.

Definition run_server (transport_method : string) : Script unit :=
  print ("Running the server using the transport " ++ transport_method) ;;
  run_async transport_method.

(** __init__.py imports [run_server] from server.py before anything else. *)
Definition run_sse : Script unit :=
  _ <- import_server ;; run_server "sse".

Definition run_stdio : Script unit :=
  _ <- import_server ;; run_server "stdio".
End Startup.

(** *** The arguments of a tool call, as the caller supplies them: [None]
    is a parameter the caller left out (or, for a parameter that admits
    [None], passed as null). *)

Module SearchArguments.
Record t : Type := mk {
  query : option string;
  auto_parameters : option bool;
  topic : option string;
  search_depth : option string;
  max_results : option Z;
  time_range : option string;
  days : option Z;
  include_raw_content : option bool;
  include_answer : option bool;
  include_images : option bool;
  include_image_descriptions : option bool;
  include_domains : option (list string);
  exclude_domains : option (list string);
  country : option string
}.
End SearchArguments.

Module ExtractArguments.
Record t : Type := mk {
  urls : option (list string);
  extract_depth : option string;
  include_images : option bool;
  format : option string
}.
End ExtractArguments.

Module CrawlArguments.
Record t : Type := mk {
  url : option string;
  instructions : option string;
  max_depth : option Z;
  max_breadth : option Z;
  limit : option Z;
  select_paths : option (list string);
  select_domains : option (list string);
  allow_external : option bool;
  categories : option (list string);
  extract_depth : option string;
  format : option string
}.
End CrawlArguments.

Module MapArguments.
Record t : Type := mk {
  url : option string;
  instructions : option string;
  max_depth : option Z;
  max_breadth : option Z;
  limit : option Z;
  select_paths : option (list string);
  select_domains : option (list string);
  allow_external : option bool;
  categories : option (list string)
}.
End MapArguments.

(** The tools are registered with the return annotation [dict[str, Any]],
    so the wrapper of a registered tool takes what the function returns as
    the structured content of the call, which has to be a dict or [None];
    for anything else it raises a [ValueError] whose message quotes the type
    and the [repr] of the value. That text is a parameter. *)
Class ResultCheck : Type := {
  not_a_dict : json -> string
}.

(** *** The tools *)

Section Tools.
Local Open Scope eff_scope.

Context `{FC : FloatCoercion}.
Context `{RC : ResultCheck}.
Variable TAVILY_API_KEY : string.
Variable net : network.

Definition headers : list (string * string) :=
  [("accept", "application/json");
   ("content-type", "application/json");
   ("Authorization", "Bearer " ++ TAVILY_API_KEY);
   ("user-agent", "tavily-mcp")].

(** The request of [client.post(endpoint, json=search_params)] on a
    client built with [headers]. *)
Definition build_request (endpoint : string) (search_params : json)
  : httpx.Request :=
  httpx.mkRequest "POST" endpoint headers search_params.

(** [await client.post(endpoint, json=search_params)]: the request is
    logged and the network answers. *)
Definition post (endpoint : string) (search_params : json)
  : Coroutine httpx.Response :=
  fun log =>
    let request := build_request endpoint search_params in
    ((log ++ [request])%list,
     match net request with
     | inl msg => inl (RequestError msg)
     | inr response => inr response
     end).

(** [response.raise_for_status()] *)
Definition raise_for_status (response : httpx.Response)
  : Coroutine httpx.Response :=
  if httpx.is_success response then Eff.ret response
  else Eff.raise (HTTPStatusError response).

(** [response.json()] *)
Definition response_json (response : httpx.Response) : Coroutine json :=
  match httpx.content response with
  | httpx.Document j => Eff.ret j
  | httpx.Malformed => Eff.raise JSONDecodeError
  | httpx.Undecodable => Eff.raise UnicodeDecodeError
  end.

(** The [try: ... except BaseException as e: raise e] block, the same in
    the four tools; its value is the [response] the code after it reads. *)
Definition request (endpoint : string) (search_params : json)
  : Coroutine httpx.Response :=
  Eff.try_except
    (response <- post endpoint search_params ;;
     (if negb (httpx.is_success response) then
        if httpx.status_code response =? 401 then
          Eff.raise (ValueError "Invalid API Key")
        else if httpx.status_code response =? 429 then
          Eff.raise (ValueError "Usage limit exceeded")
        else
          _ <- raise_for_status response ;; Eff.ret tt
      else Eff.ret tt) ;;
     Eff.ret response)
    (fun e => Eff.raise e).

(** [model_validate], whose [ValidationError] propagates. *)
Definition validated {A : Type} (r : result A) : Coroutine A :=
  match r with
  | Ok a => Eff.ret a
  | Errors errs => Eff.raise (ValidationError errs)
  end.

Definition search
           (query : string) (auto_parameters : bool) (topic : string)
           (search_depth : string) (max_results : Z)
           (time_range : option string) (days : Z)
           (include_raw_content include_answer include_images
            include_image_descriptions : bool)
           (include_domains exclude_domains : list string)
           (country : option string) : Coroutine json :=
  let topic := match country with
               | Some _ => "general"
               | None => topic
               end in
  endpoint <- getitem base_urls "search" ;;
  let search_params := JDict
    [("query", JStr query);
     ("auto_parameters", JBool auto_parameters);
     ("search_depth", JStr search_depth);
     ("topic", JStr topic);
     ("days", JInt days);
     ("time_range", json_of_option JStr time_range);
     ("max_results", JInt max_results);
     ("include_answer", JBool include_answer);
     ("include_images", JBool include_images);
     ("include_image_descriptions", JBool include_image_descriptions);
     ("include_raw_content", JBool include_raw_content);
     ("include_domains", json_strs include_domains);
     ("exclude_domains", json_strs exclude_domains);
     ("country", json_of_option JStr country);
     ("api_key", JStr TAVILY_API_KEY)] in
  response <- request endpoint search_params ;;
  response_dict <- response_json response ;;
  m <- validated (schemas.TavilySearchResponse.model_validate response_dict) ;;
  Eff.ret (schemas.TavilySearchResponse.model_dump m).

Definition extract
           (urls : list string) (extract_depth : string)
           (include_images : bool) (format : string) : Coroutine json :=
  endpoint <- getitem base_urls "extract" ;;
  let search_params := JDict
    [("urls", json_strs urls);
     ("extract_depth", JStr extract_depth);
     ("include_images", JBool include_images);
     ("format", JStr format);
     ("api_key", JStr TAVILY_API_KEY)] in
  response <- request endpoint search_params ;;
  response_dict <- response_json response ;;
  Eff.ret response_dict.

Definition crawl
           (url instructions : string) (max_depth max_breadth limit : Z)
           (select_paths select_domains : list string)
           (allow_external : bool) (categories : list string)
           (extract_depth format : string) : Coroutine json :=
  endpoint <- getitem base_urls "crawl" ;;
  let search_params := JDict
    [("url", JStr url);
     ("instructions", JStr instructions);
     ("max_depth", JInt max_depth);
     ("max_breadth", JInt max_breadth);
     ("limit", JInt limit);
     ("select_paths", json_strs select_paths);
     ("select_domains", json_strs select_domains);
     ("allow_external", JBool allow_external);
     ("categories", json_strs categories);
     ("extract_depth", JStr extract_depth);
     ("format", JStr format);
     ("api_key", JStr TAVILY_API_KEY)] in
  response <- request endpoint search_params ;;
  response_dict <- response_json response ;;
  m <- validated (schemas.TavilyCrawlResponse.model_validate response_dict) ;;
  Eff.ret (schemas.TavilyCrawlResponse.model_dump m).

Definition map
           (url instructions : string) (max_depth max_breadth limit : Z)
           (select_paths select_domains : list string)
           (allow_external : bool) (categories : list string)
  : Coroutine json :=
  endpoint <- getitem base_urls "map" ;;
  let search_params := JDict
    [("url", JStr url);
     ("instructions", JStr instructions);
     ("max_depth", JInt max_depth);
     ("max_breadth", JInt max_breadth);
     ("limit", JInt limit);
     ("select_paths", json_strs select_paths);
     ("select_domains", json_strs select_domains);
     ("allow_external", JBool allow_external);
     ("categories", json_strs categories);
     ("api_key", JStr TAVILY_API_KEY)] in
  response <- request endpoint search_params ;;
  response_dict <- response_json response ;;
  m <- validated (schemas.TavilyMapResponse.model_validate response_dict) ;;
  Eff.ret (schemas.TavilyMapResponse.model_dump m).

(** *** The registered tools: the parameter contract declared by the
    [Field] annotations is checked, the defaults are filled in, and only
    then the function runs. *)
Local Open Scope pydantic_scope.

(** The wrapper's check of what the function returned. *)
Definition structured (coroutine : Coroutine json) : Coroutine json :=
  (result <- coroutine ;;
   match result with
   | JDict _ | JNull => Eff.ret result
   | _ => Eff.raise (ValueError (not_a_dict result))
   end)%eff.

Definition call (r : result (Coroutine json)) : Coroutine json :=
  match r with
  | Ok coroutine => structured coroutine
  | Errors errs => Eff.raise (ValidationError errs)
  end.

Definition optional (members : list string) (s : string)
  : result (option string) :=
  fmap Some (literal members s).

Definition tavily_search (a : SearchArguments.t) : Coroutine json :=
  call (Ok search
    <*> arg "query" any (SearchArguments.query a)
    <*> arg_default "auto_parameters" any false (SearchArguments.auto_parameters a)
    <*> arg_default "topic" (literal TopicLiteral) "general" (SearchArguments.topic a)
    <*> arg_default "search_depth" (literal SearchDepthLiteral) "basic"
          (SearchArguments.search_depth a)
    <*> arg_default "max_results" (ge_le 5 20) 10 (SearchArguments.max_results a)
    <*> arg_default "time_range" (optional TimeRangeLiteral) None
          (SearchArguments.time_range a)
    <*> arg_default "days" any 3 (SearchArguments.days a)
    <*> arg_default "include_raw_content" any false
          (SearchArguments.include_raw_content a)
    <*> arg_default "include_answer" any false (SearchArguments.include_answer a)
    <*> arg_default "include_images" any false (SearchArguments.include_images a)
    <*> arg_default "include_image_descriptions" any false
          (SearchArguments.include_image_descriptions a)
    <*> arg_default "include_domains" any [] (SearchArguments.include_domains a)
    <*> arg_default "exclude_domains" any [] (SearchArguments.exclude_domains a)
    <*> arg_default "country" (optional CountryLiteral) None
          (SearchArguments.country a)).

Definition tavily_extract (a : ExtractArguments.t) : Coroutine json :=
  call (Ok extract
    <*> arg "urls" any (ExtractArguments.urls a)
    <*> arg_default "extract_depth" (literal ExtractDepthLiteral) "basic"
          (ExtractArguments.extract_depth a)
    <*> arg_default "include_images" any false (ExtractArguments.include_images a)
    <*> arg_default "format" (literal FormatLiteral) "markdown"
          (ExtractArguments.format a)).

Definition tavily_crawl (a : CrawlArguments.t) : Coroutine json :=
  call (Ok crawl
    <*> arg "url" any (CrawlArguments.url a)
    <*> arg "instructions" any (CrawlArguments.instructions a)
    <*> arg_default "max_depth" (ge 1) 1 (CrawlArguments.max_depth a)
    <*> arg_default "max_breadth" (ge 1) 20 (CrawlArguments.max_breadth a)
    <*> arg_default "limit" (ge 1) 50 (CrawlArguments.limit a)
    <*> arg_default "select_paths" any [] (CrawlArguments.select_paths a)
    <*> arg_default "select_domains" any [] (CrawlArguments.select_domains a)
    <*> arg_default "allow_external" any false (CrawlArguments.allow_external a)
    <*> arg_default "categories" (items_from (literal CrawlCategoriesLiteral) 0%nat)
          [] (CrawlArguments.categories a)
    <*> arg_default "extract_depth" (literal ExtractDepthLiteral) "basic"
          (CrawlArguments.extract_depth a)
    <*> arg_default "format" (literal FormatLiteral) "markdown"
          (CrawlArguments.format a)).

Definition tavily_map (a : MapArguments.t) : Coroutine json :=
  call (Ok map
    <*> arg "url" any (MapArguments.url a)
    <*> arg "instructions" any (MapArguments.instructions a)
    <*> arg_default "max_depth" (ge 1) 1 (MapArguments.max_depth a)
    <*> arg_default "max_breadth" (ge 1) 20 (MapArguments.max_breadth a)
    <*> arg_default "limit" (ge 1) 50 (MapArguments.limit a)
    <*> arg_default "select_paths" any [] (MapArguments.select_paths a)
    <*> arg_default "select_domains" any [] (MapArguments.select_domains a)
    <*> arg_default "allow_external" any false (MapArguments.allow_external a)
    <*> arg_default "categories" (items_from (literal CrawlCategoriesLiteral) 0%nat)
          [] (MapArguments.categories a)).

(** A call as the transport dispatches it: the tool's registered name
    and the arguments for it. *)
Inductive ToolCall : Type :=
| call_tavily_search (a : SearchArguments.t)
| call_tavily_extract (a : ExtractArguments.t)
| call_tavily_crawl (a : CrawlArguments.t)
| call_tavily_map (a : MapArguments.t).

Definition call_tool (c : ToolCall) : Coroutine json :=
  match c with
  | call_tavily_search a => tavily_search a
  | call_tavily_extract a => tavily_extract a
  | call_tavily_crawl a => tavily_crawl a
  | call_tavily_map a => tavily_map a
  end.
End Tools.

End server.

(** ** Observations on a run *)

(** The first request a coroutine started on [log] puts on the wire, if any. *)
Definition first_request {A : Type} (c : Coroutine A) (log : list httpx.Request)
  : option httpx.Request :=
  nth_error (fst (c log)) (List.length log).

(** [j.get(k)] when [j] is a dict. *)
Definition field (k : string) (j : json) : option json :=
  match j with
  | JDict d => dict_get k d
  | _ => None
  end.

(** [payload[k]] of a request. *)
Definition payload_get (k : string) (request : httpx.Request) : option json :=
  field k (httpx.payload request).

(** The validator outcome [r] reports the violation [e]. *)
Definition reports {A : Type} (r : pydantic.result A) (e : pydantic.ErrorDetails)
  : Prop :=
  match r with
  | pydantic.Errors errs => In e errs
  | pydantic.Ok _ => False
  end.

(** The entries of the list bound to [k] in a response dict. *)
Definition entries (k : string) (response_dict : json) : list json :=
  match field k response_dict with
  | Some (JList l) => l
  | _ => []
  end.

(** The [url] of an entry of a result list, when it has one. *)
Definition entry_url (entry : json) : option string :=
  match entry with
  | JDict d =>
    match dict_get "url" d with
    | Some (JStr u) => Some u
    | _ => None
    end
  | _ => None
  end.



(** A [float] validator in the manner of pydantic's strict mode: an [int] is
    converted when it is in range, rounding to the nearest even, and nothing
    else is coerced. *)
Definition strict_floats : pydantic.FloatCoercion :=
  {| pydantic.float_of_int z :=
       match binary_normalize 53 1024 z 0 false with
       | S754_infinity _ => None
       | f => Some f
       end;
     pydantic.float_of_bool _ := None;
     pydantic.float_of_str _ := None |}.

(** A network that answers every request with the same response. *)
Definition always (response : httpx.Response) : network :=
  fun _ => inr response.

(** How one answer of the network ends the request block of a tool: the
    response on a success status, an exception otherwise. *)
Definition http_outcome (answer : string + httpx.Response) : exn + httpx.Response :=
  match answer with
  | inl msg => inl (RequestError msg)
  | inr response =>
    if httpx.is_success response then inr response
    else if httpx.status_code response =? 401 then inl (ValueError "Invalid API Key")
    else if httpx.status_code response =? 429 then inl (ValueError "Usage limit exceeded")
    else inl (HTTPStatusError response)
  end.

(** What a tool does with the response it got: parse the body, then [k]. *)
Definition finish (k : json -> exn + json) (o : exn + httpx.Response) : exn + json :=
  match o with
  | inl e => inl e
  | inr response =>
    match httpx.content response with
    | httpx.Document response_dict => k response_dict
    | httpx.Malformed => inl JSONDecodeError
    | httpx.Undecodable => inl UnicodeDecodeError
    end
  end.

(** What the wrapper of a registered tool makes of the value the function
    returned. *)
Definition accepted `{RC : server.ResultCheck} (result : json) : exn + json :=
  match result with
  | JDict _ | JNull => inr result
  | _ => inl (ValueError (server.not_a_dict result))
  end.

(** [Model.model_validate(response_dict).model_dump()] *)
Definition checked {M : Type} (model_validate : json -> pydantic.result M)
           (model_dump : M -> json) (response_dict : json) : exn + json :=
  match model_validate response_dict with
  | pydantic.Ok m => inr (model_dump m)
  | pydantic.Errors errs => inl (ValidationError errs)
  end.

(** ** The declared response shapes, as predicates on JSON *)

(** The validator accepted the value. *)
Definition is_ok {A : Type} (r : pydantic.result A) : bool :=
  match r with
  | pydantic.Ok _ => true
  | pydantic.Errors _ => false
  end.

Module shape.
Section Shapes.
Context `{FC : pydantic.FloatCoercion}.

Definition is_str (j : json) : bool :=
  match j with
  | JStr _ => true
  | _ => false
  end.

Definition is_dict (j : json) : bool :=
  match j with
  | JDict _ => true
  | _ => false
  end.

Definition converts {A : Type} (o : option A) : bool :=
  match o with
  | Some _ => true
  | None => false
  end.

(** A float, or a value the [float] validator converts to one. *)
Definition is_float (j : json) : bool :=
  match j with
  | JFloat _ => true
  | JInt z => converts (pydantic.float_of_int z)
  | JBool b => converts (pydantic.float_of_bool b)
  | JStr s => converts (pydantic.float_of_str s)
  | _ => false
  end.

Definition is_list_of (p : json -> bool) (j : json) : bool :=
  match j with
  | JList l => forallb p l
  | _ => false
  end.

Definition null_or (p : json -> bool) (j : json) : bool :=
  match j with
  | JNull => true
  | _ => p j
  end.

(** The key is there and its value has the shape. *)
Definition has (k : string) (p : json -> bool) (d : list (string * json)) : bool :=
  match dict_get k d with
  | Some v => p v
  | None => false
  end.

(** The key is not there, or its value has the shape. *)
Definition may_have (k : string) (p : json -> bool) (d : list (string * json))
  : bool :=
  match dict_get k d with
  | Some v => p v
  | None => true
  end.

Definition object (p : list (string * json) -> bool) (j : json) : bool :=
  match j with
  | JDict d => p d
  | _ => false
  end.

Definition SearchImage : json -> bool :=
  object (fun d => has "url" is_str d
                   && may_have "description" (null_or is_str) d).

Definition SearchResult : json -> bool :=
  object (fun d => has "title" is_str d
                   && has "url" is_str d
                   && has "content" is_str d
                   && has "score" is_float d
                   && may_have "published_date" (null_or is_str) d
                   && may_have "raw_content" (null_or is_str) d).

Definition TavilySearchResponse : json -> bool :=
  object (fun d =>
    has "query" is_str d
    && may_have "answer" (null_or is_str) d
    && may_have "images"
                (null_or (is_list_of (fun x => is_str x || SearchImage x))) d
    && has "results" (is_list_of SearchResult) d
    && has "response_time" is_float d
    && may_have "auto_parameters" (null_or is_dict) d).

Definition ExtractResult : json -> bool :=
  object (fun d => has "url" is_str d
                   && has "raw_content" is_str d
                   && has "images" (is_list_of is_str) d).

Definition ExtractFailedResult : json -> bool :=
  object (fun d => has "url" is_str d && has "error" is_str d).

Definition TavilyExtractResponse : json -> bool :=
  object (fun d => has "results" (is_list_of ExtractResult) d
                   && has "failed_results" (is_list_of ExtractFailedResult) d
                   && has "response_time" is_float d).

Definition CrawlResult : json -> bool :=
  object (fun d => has "url" is_str d && has "raw_content" is_str d).

Definition TavilyCrawlResponse : json -> bool :=
  object (fun d => has "base_url" is_str d
                   && has "results" (is_list_of CrawlResult) d
                   && has "response_time" is_float d).

Definition TavilyMapResponse : json -> bool :=
  object (fun d => has "base_url" is_str d
                   && has "results" (is_list_of is_str) d
                   && has "response_time" is_float d).
End Shapes.
End shape.

(** ** The parameter contracts, spelled out *)

(** [o if o is not None else dflt] *)
Definition or_default {A : Type} (dflt : A) (o : option A) : A :=
  match o with
  | Some a => a
  | None => dflt
  end.

(** [{k: d[k] for k in names if k in d}] *)
Definition restrict {A : Type} (names : list string) (d : list (string * A))
  : list (string * A) :=
  List.flat_map (fun k => match dict_get k d with
                          | Some v => [(k, v)]
                          | None => []
                          end) names.

(** A dict cut down to [names]; any other value as it is. *)
Definition restrict_json (names : list string) (j : json) : json :=
  match j with
  | JDict d => JDict (restrict names d)
  | _ => j
  end.

Module contract.
Import pydantic.

(** The validator outcome that has the violations [errs], and the value [a]
    when there is none. *)
Definition outcome {A : Type} (errs : list ErrorDetails) (a : A) : result A :=
  match errs with
  | [] => Ok a
  | _ => Errors errs
  end.

(** A required parameter that was left out. *)
Definition missing_if {A : Type} (name : string) (o : option A)
  : list ErrorDetails :=
  match o with
  | Some _ => []
  | None => [mkError "missing_argument" [Key name]]
  end.

(** A value that is not a member of the parameter's [Literal]. *)
Definition outside (name : string) (members : list string) (o : option string)
  : list ErrorDetails :=
  match o with
  | Some s => if str_in s members then [] else [mkError "literal_error" [Key name]]
  | None => []
  end.

(** An integer below the [ge] bound of the parameter. *)
Definition below (name : string) (lo : Z) (o : option Z) : list ErrorDetails :=
  match o with
  | Some n => if n <? lo then [mkError "greater_than_equal" [Key name]] else []
  | None => []
  end.

(** An integer outside the [ge] and [le] bounds of the parameter. *)
Definition out_of_range (name : string) (lo hi : Z) (o : option Z)
  : list ErrorDetails :=
  match o with
  | Some n =>
    if n <? lo then [mkError "greater_than_equal" [Key name]]
    else if hi <? n then [mkError "less_than_equal" [Key name]]
    else []
  | None => []
  end.

(** The items of a list that are not members, by index from [i] on. *)
Fixpoint items_outside_from (members : list string) (i : nat) (l : list string)
  : list ErrorDetails :=
  match l with
  | [] => []
  | s :: l' =>
    ((if str_in s members then [] else [mkError "literal_error" [Idx i]])
       ++ items_outside_from members (S i) l')%list
  end.

Definition items_outside (name : string) (members : list string)
           (o : option (list string)) : list ErrorDetails :=
  match o with
  | Some l => List.map (under (Key name)) (items_outside_from members 0%nat l)
  | None => []
  end.

(** What a call of each tool violates, in parameter order. *)
Definition search_violations (a : server.SearchArguments.t) : list ErrorDetails :=
  (missing_if "query" (server.SearchArguments.query a)
   ++ outside "topic" server.TopicLiteral (server.SearchArguments.topic a)
   ++ outside "search_depth" server.SearchDepthLiteral
              (server.SearchArguments.search_depth a)
   ++ out_of_range "max_results" 5 20 (server.SearchArguments.max_results a)
   ++ outside "time_range" server.TimeRangeLiteral
              (server.SearchArguments.time_range a)
   ++ outside "country" server.CountryLiteral (server.SearchArguments.country a))%list.

Definition extract_violations (a : server.ExtractArguments.t) : list ErrorDetails :=
  (missing_if "urls" (server.ExtractArguments.urls a)
   ++ outside "extract_depth" server.ExtractDepthLiteral
              (server.ExtractArguments.extract_depth a)
   ++ outside "format" server.FormatLiteral (server.ExtractArguments.format a))%list.

Definition crawl_violations (a : server.CrawlArguments.t) : list ErrorDetails :=
  (missing_if "url" (server.CrawlArguments.url a)
   ++ missing_if "instructions" (server.CrawlArguments.instructions a)
   ++ below "max_depth" 1 (server.CrawlArguments.max_depth a)
   ++ below "max_breadth" 1 (server.CrawlArguments.max_breadth a)
   ++ below "limit" 1 (server.CrawlArguments.limit a)
   ++ items_outside "categories" server.CrawlCategoriesLiteral
                    (server.CrawlArguments.categories a)
   ++ outside "extract_depth" server.ExtractDepthLiteral
              (server.CrawlArguments.extract_depth a)
   ++ outside "format" server.FormatLiteral (server.CrawlArguments.format a))%list.

Definition map_violations (a : server.MapArguments.t) : list ErrorDetails :=
  (missing_if "url" (server.MapArguments.url a)
   ++ missing_if "instructions" (server.MapArguments.instructions a)
   ++ below "max_depth" 1 (server.MapArguments.max_depth a)
   ++ below "max_breadth" 1 (server.MapArguments.max_breadth a)
   ++ below "limit" 1 (server.MapArguments.limit a)
   ++ items_outside "categories" server.CrawlCategoriesLiteral
                    (server.MapArguments.categories a))%list.

End contract.

(** ** Sample calls and upstream answers *)

Module Samples.
Definition key : string := "tvly-demo".

(** A wrapper whose message does not quote the value. *)
Definition messages : server.ResultCheck :=
  {| server.not_a_dict _ := "structured_content must be a dict or None" |}.

Definition search_args : server.SearchArguments.t :=
  server.SearchArguments.mk (Some "rocq prover") None (Some "news") None None
                            None None None None None None None None
                            (Some "france").

Definition search_request : httpx.Request :=
  server.build_request key "https://api.tavily.com/search"
    (JDict [("query", JStr "rocq prover");
            ("auto_parameters", JBool false);
            ("search_depth", JStr "basic");
            ("topic", JStr "general");
            ("days", JInt 3);
            ("time_range", JNull);
            ("max_results", JInt 10);
            ("include_answer", JBool false);
            ("include_images", JBool false);
            ("include_image_descriptions", JBool false);
            ("include_raw_content", JBool false);
            ("include_domains", JList []);
            ("exclude_domains", JList []);
            ("country", JStr "france");
            ("api_key", JStr key)]).

Definition too_few : server.SearchArguments.t :=
  server.SearchArguments.mk (Some "rocq prover") None None None (Some 4) None
                            None None None None None None None None.

Definition too_many : server.SearchArguments.t :=
  server.SearchArguments.mk (Some "rocq prover") None None None (Some 21) None
                            None None None None None None None None.

Definition three_urls : list string :=
  ["https://a.example/x"; "https://b.example/y"; "https://c.example/z"].

Definition extract_args : server.ExtractArguments.t :=
  server.ExtractArguments.mk (Some three_urls) None None None.

Definition extract_request : httpx.Request :=
  server.build_request key "https://api.tavily.com/extract"
    (JDict [("urls", json_strs three_urls);
            ("extract_depth", JStr "basic");
            ("include_images", JBool false);
            ("format", JStr "markdown");
            ("api_key", JStr key)]).

Definition crawl_args : server.CrawlArguments.t :=
  server.CrawlArguments.mk (Some "https://a.example") (Some "find the docs")
                           None None None None None None None None None.

Definition crawl_request : httpx.Request :=
  server.build_request key "https://api.tavily.com/crawl"
    (JDict [("url", JStr "https://a.example");
            ("instructions", JStr "find the docs");
            ("max_depth", JInt 1);
            ("max_breadth", JInt 20);
            ("limit", JInt 50);
            ("select_paths", JList []);
            ("select_domains", JList []);
            ("allow_external", JBool false);
            ("categories", JList []);
            ("extract_depth", JStr "basic");
            ("format", JStr "markdown");
            ("api_key", JStr key)]).

Definition map_args : server.MapArguments.t :=
  server.MapArguments.mk (Some "https://a.example") (Some "find the docs")
                         None None None None None None None.

Definition map_request : httpx.Request :=
  server.build_request key "https://api.tavily.com/map"
    (JDict [("url", JStr "https://a.example");
            ("instructions", JStr "find the docs");
            ("max_depth", JInt 1);
            ("max_breadth", JInt 20);
            ("limit", JInt 50);
            ("select_paths", JList []);
            ("select_domains", JList []);
            ("allow_external", JBool false);
            ("categories", JList []);
            ("api_key", JStr key)]).

Definition half : pyfloat := S754_finite false 4503599627370496 (-53).

(** A search body with an undeclared key and without the optional fields. *)
Definition search_body : json :=
  JDict [("query", JStr "rocq prover");
         ("follow_up_questions", JNull);
         ("results",
          JList [JDict [("title", JStr "Rocq");
                        ("url", JStr "https://rocq-prover.org");
                        ("content", JStr "The Rocq Prover");
                        ("score", JFloat half)]]);
         ("response_time", JFloat half)].

Definition search_body_without_results : list (string * json) :=
  [("query", JStr "rocq prover"); ("response_time", JFloat half)].

Definition extracted (u : string) : json :=
  JDict [("url", JStr u); ("raw_content", JStr "text"); ("images", JList [])].

Definition failed (u : string) : json :=
  JDict [("url", JStr u); ("error", JStr "timeout")].

(** Two successes and one failure, one entry per input URL. *)
Definition extract_body : json :=
  JDict [("results",
          JList [extracted "https://a.example/x"; extracted "https://b.example/y"]);
         ("failed_results", JList [failed "https://c.example/z"]);
         ("response_time", JFloat half)].


Definition crawl_body : json :=
  JDict [("base_url", JStr "https://a.example");
         ("results",
          JList [JDict [("url", JStr "https://a.example/docs");
                        ("raw_content", JStr "text");
                        ("favicon", JNull)]]);
         ("response_time", JFloat half);
         ("request_id", JStr "r-1")].

Definition map_body : json :=
  JDict [("base_url", JStr "https://a.example");
         ("results", JList [JStr "https://a.example/docs"]);
         ("response_time", JFloat half);
         ("request_id", JStr "r-1")].

Definition ok (response_dict : json) : httpx.Response :=
  httpx.mkResponse 200 (httpx.Document response_dict).

Definition unauthorized : httpx.Response :=
  httpx.mkResponse 401
                   (httpx.Document (JDict [("detail", JStr "Unauthorized")])).

Definition too_many_requests : httpx.Response :=
  httpx.mkResponse 429 httpx.Malformed.

(** An environment without any variable set, and one with the key only. *)
Definition no_environ : string -> option string := fun _ => None.

Definition key_environ : string -> option string :=
  fun name => if String.eqb name "TAVILY_API_KEY" then Some key else None.

Definition int_never : string -> option Z := fun _ => None.

Definition server_error : httpx.Response :=
  httpx.mkResponse 500 (httpx.Document (JStr "Internal Server Error")).

Definition not_json : httpx.Response := httpx.mkResponse 200 httpx.Malformed.

(** A body that is JSON but not an object. *)
Definition list_body : json := JList [extracted "https://a.example/x"].

Definition not_text : httpx.Response := httpx.mkResponse 200 httpx.Undecodable.

(** A network on which every [client.post] fails. *)
Definition refused : network := fun _ => inl "connection refused".

Definition entry_without_url : json :=
  JDict [("title", JStr "Rocq");
         ("content", JStr "The Rocq Prover");
         ("score", JFloat half)].

Definition results_second_off : list json :=
  [JDict [("title", JStr "Rocq");
          ("url", JStr "https://rocq-prover.org");
          ("content", JStr "The Rocq Prover");
          ("score", JFloat half)];
   entry_without_url].

Definition search_body_second_off : list (string * json) :=
  [("query", JStr "rocq prover");
   ("results", JList results_second_off);
   ("response_time", JFloat half)].

Definition crawl_body_dict : list (string * json) :=
  match crawl_body with
  | JDict d => d
  | _ => []
  end.

Definition map_body_dict : list (string * json) :=
  match map_body with
  | JDict d => d
  | _ => []
  end.

Definition search_body_dict : list (string * json) :=
  match search_body with
  | JDict d => d
  | _ => []
  end.
End Samples.

(** * Properties *)

(** ** The validator algebra *)

Section Validators.
Import pydantic.
Local Open Scope pydantic_scope.

Lemma ap_Ok_Ok {A B : Type} (f : A -> B) (a : A) : Ok f <*> Ok a = Ok (f a).
Proof. reflexivity. Qed.

Lemma ap_Ok_Errors {A B : Type} (f : A -> B) errs :
  Ok f <*> (Errors errs : result A) = Errors errs.
Proof. reflexivity. Qed.

Lemma ap_Errors_l {A B : Type} (errs : list ErrorDetails) (ra : result A) :
  (Errors errs : result (A -> B)) <*> ra = Errors (errs ++ errors_of ra).
Proof.
  destruct ra as [a | ea]; cbn; [now rewrite app_nil_r | reflexivity].
Qed.

Lemma reports_ap_l {A B : Type} (rf : result (A -> B)) (ra : result A) e :
  reports rf e -> reports (rf <*> ra) e.
Proof.
  destruct rf as [f | ef]; cbn; [tauto |].
  destruct ra; cbn; [tauto | intros; apply in_or_app; now left].
Qed.

Lemma reports_ap_r {A B : Type} (rf : result (A -> B)) (ra : result A) e :
  reports ra e -> reports (rf <*> ra) e.
Proof.
  destruct ra as [a | ea]; cbn; [tauto |].
  destruct rf; cbn; [tauto | intros; apply in_or_app; now right].
Qed.

Lemma required_absent {A V : Type} name (v : V -> result A) d :
  dict_get name d = None ->
  reports (required name v d) (mkError "missing" [Key name]).
Proof.
  unfold required; intros ->; cbn; now left.
Qed.

Lemma with_default_absent {A V : Type} name (v : V -> result A) dflt d :
  dict_get name d = None -> with_default name v dflt d = Ok dflt.
Proof.
  unfold with_default; now intros ->.
Qed.

Lemma ap_Ok_inv {A B : Type} (rf : result (A -> B)) (ra : result A) b :
  rf <*> ra = Ok b -> exists f a, rf = Ok f /\ ra = Ok a /\ b = f a.
Proof.
  destruct rf as [f | ef], ra as [a | ea]; cbn; try discriminate.
  intros [= <-]. now exists f, a.
Qed.


(** *** A validator accepts exactly the values of its shape *)

Lemma is_ok_ap {A B : Type} (rf : result (A -> B)) (ra : result A) :
  is_ok (rf <*> ra) = is_ok rf && is_ok ra.
Proof. now destruct rf, ra. Qed.

Lemma is_ok_required {A : Type} k (v : json -> result A) p d :
  (forall x, is_ok (v x) = p x) ->
  is_ok (required k v d) = shape.has k p d.
Proof.
  intros Hv. unfold required, shape.has.
  destruct (dict_get k d) as [x |]; [| reflexivity].
  rewrite <- Hv. now destruct (v x).
Qed.

Lemma is_ok_with_default {A : Type} k (v : json -> result A) dflt p d :
  (forall x, is_ok (v x) = p x) ->
  is_ok (with_default k v dflt d) = shape.may_have k p d.
Proof.
  intros Hv. unfold with_default, arg_default, shape.may_have.
  destruct (dict_get k d) as [x |]; [| reflexivity].
  rewrite <- Hv. now destruct (v x).
Qed.

Lemma is_ok_nullable {A : Type} (v : json -> result A) p j :
  (forall x, is_ok (v x) = p x) ->
  is_ok (nullable v j) = shape.null_or p j.
Proof.
  intros Hv. destruct j; cbn; try reflexivity; rewrite <- Hv;
    now destruct (v _).
Qed.

Lemma is_ok_items_from {A : Type} (v : json -> result A) p i l :
  (forall x, is_ok (v x) = p x) ->
  is_ok (items_from v i l) = forallb p l.
Proof.
  intros Hv. revert i. induction l as [| x l IH]; intros i; [reflexivity |].
  cbn. rewrite is_ok_ap, IH, <- Hv. now destruct (v x).
Qed.

Lemma is_ok_list_of {A : Type} (v : json -> result A) p j :
  (forall x, is_ok (v x) = p x) ->
  is_ok (list_of v j) = shape.is_list_of p j.
Proof.
  intros Hv. destruct j; try reflexivity. now apply is_ok_items_from.
Qed.

Lemma is_ok_str j : is_ok (str j) = shape.is_str j.
Proof. now destruct j. Qed.

Lemma is_ok_dict_str_any j : is_ok (dict_str_any j) = shape.is_dict j.
Proof. now destruct j. Qed.

Lemma is_ok_float `{FC : FloatCoercion} j : is_ok (float j) = shape.is_float j.
Proof.
  destruct j; cbn; try reflexivity;
    match goal with |- context [coerced _ ?o] => now destruct o end.
Qed.

Lemma is_ok_model {A : Type} (fields : list (string * json) -> result A) p j :
  (forall d, is_ok (fields d) = p d) ->
  is_ok (schemas.model fields j) = shape.object p j.
Proof.
  intros Hf. destruct j; try reflexivity. apply Hf.
Qed.

Ltac shape_of_model :=
  apply is_ok_model; intros d;
  repeat (rewrite is_ok_ap; f_equal);
  try reflexivity;
  repeat first
         [ apply is_ok_required
         | apply is_ok_with_default
         | intros ?; apply is_ok_nullable
         | intros ?; apply is_ok_list_of
         | intros ?; apply is_ok_str
         | intros ?; apply is_ok_float
         | intros ?; apply is_ok_dict_str_any ].

Lemma is_ok_SearchImage j :
  is_ok (schemas.SearchImage.model_validate j) = shape.SearchImage j.
Proof. shape_of_model. Qed.

Lemma is_ok_str_or_SearchImage j :
  is_ok (schemas.str_or_SearchImage j)
  = shape.is_str j || shape.SearchImage j.
Proof.
  unfold schemas.str_or_SearchImage.
  destruct j; try reflexivity;
    rewrite <- is_ok_SearchImage;
    match goal with
    | |- context [schemas.SearchImage.model_validate ?x] =>
      now destruct (schemas.SearchImage.model_validate x)
    end.
Qed.

Lemma is_ok_ExtractResult j :
  is_ok (schemas.ExtractResult.model_validate j) = shape.ExtractResult j.
Proof. shape_of_model. Qed.

Lemma is_ok_ExtractFailedResult j :
  is_ok (schemas.ExtractFailedResult.model_validate j)
  = shape.ExtractFailedResult j.
Proof. shape_of_model. Qed.

Lemma is_ok_CrawlResult j :
  is_ok (schemas.CrawlResult.model_validate j) = shape.CrawlResult j.
Proof. shape_of_model. Qed.

Section ResponseShapes.
Context `{FC : FloatCoercion}.

Lemma is_ok_SearchResult j :
  is_ok (schemas.SearchResult.model_validate j) = shape.SearchResult j.
Proof. shape_of_model. Qed.

Lemma is_ok_TavilySearchResponse j :
  is_ok (schemas.TavilySearchResponse.model_validate j)
  = shape.TavilySearchResponse j.
Proof.
  shape_of_model.
  - apply is_ok_str_or_SearchImage.
  - apply is_ok_SearchResult.
Qed.

Lemma is_ok_TavilyExtractResponse j :
  is_ok (schemas.TavilyExtractResponse.model_validate j)
  = shape.TavilyExtractResponse j.
Proof.
  shape_of_model.
  - apply is_ok_ExtractResult.
  - apply is_ok_ExtractFailedResult.
Qed.

Lemma is_ok_TavilyCrawlResponse j :
  is_ok (schemas.TavilyCrawlResponse.model_validate j)
  = shape.TavilyCrawlResponse j.
Proof.
  shape_of_model. apply is_ok_CrawlResult.
Qed.

Lemma is_ok_TavilyMapResponse j :
  is_ok (schemas.TavilyMapResponse.model_validate j)
  = shape.TavilyMapResponse j.
Proof. shape_of_model. Qed.
End ResponseShapes.
End Validators.

(** ** How a tool call runs *)

(** Splits on the outcome of each argument validator of a registered
    tool, in parameter order; once one has failed the rest only add errors. *)
Ltac validate_args :=
  repeat match goal with
         | |- context [pydantic.ap (pydantic.Ok ?f) ?r] =>
           let E := fresh "E" in
           destruct r eqn:E; [rewrite ap_Ok_Ok | rewrite ap_Ok_Errors]
         | |- context [pydantic.ap (pydantic.Errors ?errs) ?r] =>
           rewrite (ap_Errors_l errs r)
         end.

Ltac rejected_or_run run :=
  validate_args; cbn [server.call];
  [ right; apply run | left; eexists; reflexivity .. ].


Section Runs.
Import pydantic.
Local Open Scope eff_scope.

Context `{FC : FloatCoercion}.
Context `{RC : server.ResultCheck}.
Variable TAVILY_API_KEY : string.
Variable net : network.

#[local] Abbreviation build_request := (server.build_request TAVILY_API_KEY).
#[local] Abbreviation request := (server.request TAVILY_API_KEY net).

(** One request goes out, whatever the answer is, and the answer is mapped
    by [http_outcome]. *)
Lemma request_run endpoint search_params log :
  request endpoint search_params log
  = ((log ++ [build_request endpoint search_params])%list,
     http_outcome (net (build_request endpoint search_params))).
Proof.
  unfold server.request, Eff.try_except, Eff.bind, server.post, http_outcome.
  cbn.
  destruct (net (build_request endpoint search_params)) as [msg | response];
    [reflexivity |].
  unfold server.raise_for_status.
  destruct (httpx.is_success response); cbn; [reflexivity |].
  destruct (httpx.status_code response =? 401); [reflexivity |].
  destruct (httpx.status_code response =? 429); reflexivity.
Qed.

(** The tail of the three validating tools. *)
Lemma validating_tail {M : Type} (model_validate : json -> result M)
      (model_dump : M -> json) endpoint search_params log :
  (response <- request endpoint search_params ;;
   response_dict <- server.response_json response ;;
   m <- server.validated (model_validate response_dict) ;;
   Eff.ret (model_dump m)) log
  = ((log ++ [build_request endpoint search_params])%list,
     finish (checked model_validate model_dump)
            (http_outcome (net (build_request endpoint search_params)))).
Proof.
  unfold Eff.bind at 1. rewrite request_run.
  destruct (http_outcome _) as [e | response]; [reflexivity |].
  unfold finish, checked, server.response_json, Eff.bind.
  destruct (httpx.content response) as [response_dict | |]; try reflexivity.
  cbn. destruct (model_validate response_dict); reflexivity.
Qed.

(** The tail of [extract]. *)
Lemma raw_tail endpoint search_params log :
  (response <- request endpoint search_params ;;
   response_dict <- server.response_json response ;;
   Eff.ret response_dict) log
  = ((log ++ [build_request endpoint search_params])%list,
     finish inr (http_outcome (net (build_request endpoint search_params)))).
Proof.
  unfold Eff.bind at 1. rewrite request_run.
  destruct (http_outcome _) as [e | response]; [reflexivity |].
  unfold finish, server.response_json, Eff.bind.
  destruct (httpx.content response); reflexivity.
Qed.

(** The wrapper's check sends nothing and leaves errors as they are. *)
Lemma structured_run (c : Coroutine json) log log' o :
  c log = (log', o) ->
  server.structured c log
  = (log', match o with
           | inl e => inl e
           | inr result => accepted result
           end).
Proof.
  unfold server.structured, Eff.bind, accepted. intros ->.
  destruct o as [e | result]; [reflexivity |]. now destruct result.
Qed.

Lemma fst_structured (c : Coroutine json) log :
  fst (server.structured c log) = fst (c log).
Proof.
  destruct (c log) as [log' o] eqn:Hc. now rewrite (structured_run _ _ _ _ Hc).
Qed.

Lemma first_request_structured (c : Coroutine json) log :
  first_request (server.structured c) log = first_request c log.
Proof.
  unfold first_request. now rewrite fst_structured.
Qed.

(** What a validating tool returns passes the check: it is a dump. *)
Lemma structured_validating {M : Type} (model_validate : json -> result M)
      (model_dump : M -> json) (c : Coroutine json) log log' o :
  (forall m, accepted (model_dump m) = inr (model_dump m)) ->
  c log = (log', finish (checked model_validate model_dump) o) ->
  server.structured c log
  = (log', finish (checked model_validate model_dump) o).
Proof.
  intros Hdump Hc. rewrite (structured_run _ _ _ _ Hc). f_equal.
  unfold finish, checked. destruct o as [e | response]; [reflexivity |].
  destruct (httpx.content response) as [j | |]; try reflexivity.
  destruct (model_validate j); [apply Hdump | reflexivity].
Qed.

Lemma structured_raw (c : Coroutine json) log log' o :
  c log = (log', finish inr o) ->
  server.structured c log = (log', finish accepted o).
Proof.
  intros Hc. rewrite (structured_run _ _ _ _ Hc). f_equal.
  unfold finish. destruct o as [e | response]; [reflexivity |].
  now destruct (httpx.content response).
Qed.

(** The endpoint lookups never raise. *)
Lemma getitem_base_urls {A : Type} k url (body : string -> Coroutine A) log :
  dict_get k server.base_urls = Some url ->
  (endpoint <- getitem server.base_urls k ;; body endpoint) log = body url log.
Proof.
  unfold getitem. intros ->. reflexivity.
Qed.

Lemma search_run query auto_parameters topic search_depth max_results
      time_range days include_raw_content include_answer include_images
      include_image_descriptions include_domains exclude_domains country log :
  exists search_params,
    server.search TAVILY_API_KEY net query auto_parameters topic search_depth
                  max_results time_range days include_raw_content
                  include_answer include_images include_image_descriptions
                  include_domains exclude_domains country log
    = ((log ++ [build_request "https://api.tavily.com/search" search_params])%list,
       finish (checked schemas.TavilySearchResponse.model_validate
                       schemas.TavilySearchResponse.model_dump)
              (http_outcome
                 (net (build_request "https://api.tavily.com/search"
                                     search_params)))).
Proof.
  eexists. unfold server.search.
  rewrite getitem_base_urls with (url := "https://api.tavily.com/search")
    by reflexivity.
  apply validating_tail.
Qed.

Lemma extract_run urls extract_depth include_images format log :
  exists search_params,
    server.extract TAVILY_API_KEY net urls extract_depth include_images format log
    = ((log ++ [build_request "https://api.tavily.com/extract" search_params])%list,
       finish inr
              (http_outcome
                 (net (build_request "https://api.tavily.com/extract"
                                     search_params)))).
Proof.
  eexists. unfold server.extract.
  rewrite getitem_base_urls with (url := "https://api.tavily.com/extract")
    by reflexivity.
  apply raw_tail.
Qed.

Lemma crawl_run url instructions max_depth max_breadth limit select_paths
      select_domains allow_external categories extract_depth format log :
  exists search_params,
    server.crawl TAVILY_API_KEY net url instructions max_depth max_breadth limit
                 select_paths select_domains allow_external categories
                 extract_depth format log
    = ((log ++ [build_request "https://api.tavily.com/crawl" search_params])%list,
       finish (checked schemas.TavilyCrawlResponse.model_validate
                       schemas.TavilyCrawlResponse.model_dump)
              (http_outcome
                 (net (build_request "https://api.tavily.com/crawl"
                                     search_params)))).
Proof.
  eexists. unfold server.crawl.
  rewrite getitem_base_urls with (url := "https://api.tavily.com/crawl")
    by reflexivity.
  apply validating_tail.
Qed.

Lemma map_run url instructions max_depth max_breadth limit select_paths
      select_domains allow_external categories log :
  exists search_params,
    server.map TAVILY_API_KEY net url instructions max_depth max_breadth limit
               select_paths select_domains allow_external categories log
    = ((log ++ [build_request "https://api.tavily.com/map" search_params])%list,
       finish (checked schemas.TavilyMapResponse.model_validate
                       schemas.TavilyMapResponse.model_dump)
              (http_outcome
                 (net (build_request "https://api.tavily.com/map"
                                     search_params)))).
Proof.
  eexists. unfold server.map.
  rewrite getitem_base_urls with (url := "https://api.tavily.com/map")
    by reflexivity.
  apply validating_tail.
Qed.

Lemma search_tool_run query auto_parameters topic search_depth max_results
      time_range days include_raw_content include_answer include_images
      include_image_descriptions include_domains exclude_domains country log :
  exists search_params,
    server.structured (server.search TAVILY_API_KEY net query auto_parameters topic search_depth
      max_results time_range days include_raw_content include_answer
      include_images include_image_descriptions include_domains
      exclude_domains country) log
    = ((log ++ [build_request "https://api.tavily.com/search" search_params])%list,
       finish (checked schemas.TavilySearchResponse.model_validate
                       schemas.TavilySearchResponse.model_dump)
              (http_outcome (net (build_request "https://api.tavily.com/search" search_params)))).
Proof.
  destruct (search_run query auto_parameters topic search_depth
      max_results time_range days include_raw_content include_answer
      include_images include_image_descriptions include_domains
      exclude_domains country log) as [p Hp].
  exists p. now apply structured_validating.
Qed.

Lemma extract_tool_run urls extract_depth include_images format log :
  exists search_params,
    server.structured (server.extract TAVILY_API_KEY net urls extract_depth include_images format) log
    = ((log ++ [build_request "https://api.tavily.com/extract" search_params])%list,
       finish accepted
              (http_outcome (net (build_request "https://api.tavily.com/extract" search_params)))).
Proof.
  destruct (extract_run urls extract_depth include_images format log) as [p Hp].
  exists p. now apply structured_raw.
Qed.

Lemma crawl_tool_run url instructions max_depth max_breadth limit select_paths
      select_domains allow_external categories extract_depth format log :
  exists search_params,
    server.structured (server.crawl TAVILY_API_KEY net url instructions max_depth max_breadth limit
      select_paths select_domains allow_external categories extract_depth
      format) log
    = ((log ++ [build_request "https://api.tavily.com/crawl" search_params])%list,
       finish (checked schemas.TavilyCrawlResponse.model_validate
                       schemas.TavilyCrawlResponse.model_dump)
              (http_outcome (net (build_request "https://api.tavily.com/crawl" search_params)))).
Proof.
  destruct (crawl_run url instructions max_depth max_breadth limit
      select_paths select_domains allow_external categories extract_depth
      format log) as [p Hp].
  exists p. now apply structured_validating.
Qed.

Lemma map_tool_run url instructions max_depth max_breadth limit select_paths
      select_domains allow_external categories log :
  exists search_params,
    server.structured (server.map TAVILY_API_KEY net url instructions max_depth max_breadth limit
      select_paths select_domains allow_external categories) log
    = ((log ++ [build_request "https://api.tavily.com/map" search_params])%list,
       finish (checked schemas.TavilyMapResponse.model_validate
                       schemas.TavilyMapResponse.model_dump)
              (http_outcome (net (build_request "https://api.tavily.com/map" search_params)))).
Proof.
  destruct (map_run url instructions max_depth max_breadth limit
      select_paths select_domains allow_external categories log) as [p Hp].
  exists p. now apply structured_validating.
Qed.

(** A call to a registered tool is either rejected with nothing sent, or
    runs the function on some payload. *)
Lemma tavily_search_run a log :
  (exists errs,
      server.tavily_search TAVILY_API_KEY net a log
      = (log, inl (ValidationError errs)))
  \/ (exists search_params,
        server.tavily_search TAVILY_API_KEY net a log
        = ((log ++ [build_request "https://api.tavily.com/search"
                                  search_params])%list,
           finish (checked schemas.TavilySearchResponse.model_validate
                           schemas.TavilySearchResponse.model_dump)
                  (http_outcome
                     (net (build_request "https://api.tavily.com/search"
                                         search_params))))).
Proof.
  unfold server.tavily_search. rejected_or_run search_tool_run.
Qed.

Lemma tavily_extract_run a log :
  (exists errs,
      server.tavily_extract TAVILY_API_KEY net a log
      = (log, inl (ValidationError errs)))
  \/ (exists search_params,
        server.tavily_extract TAVILY_API_KEY net a log
        = ((log ++ [build_request "https://api.tavily.com/extract"
                                  search_params])%list,
           finish accepted
                  (http_outcome
                     (net (build_request "https://api.tavily.com/extract"
                                         search_params))))).
Proof.
  unfold server.tavily_extract. rejected_or_run extract_tool_run.
Qed.

Lemma tavily_crawl_run a log :
  (exists errs,
      server.tavily_crawl TAVILY_API_KEY net a log
      = (log, inl (ValidationError errs)))
  \/ (exists search_params,
        server.tavily_crawl TAVILY_API_KEY net a log
        = ((log ++ [build_request "https://api.tavily.com/crawl"
                                  search_params])%list,
           finish (checked schemas.TavilyCrawlResponse.model_validate
                           schemas.TavilyCrawlResponse.model_dump)
                  (http_outcome
                     (net (build_request "https://api.tavily.com/crawl"
                                         search_params))))).
Proof.
  unfold server.tavily_crawl. rejected_or_run crawl_tool_run.
Qed.

Lemma tavily_map_run a log :
  (exists errs,
      server.tavily_map TAVILY_API_KEY net a log
      = (log, inl (ValidationError errs)))
  \/ (exists search_params,
        server.tavily_map TAVILY_API_KEY net a log
        = ((log ++ [build_request "https://api.tavily.com/map"
                                  search_params])%list,
           finish (checked schemas.TavilyMapResponse.model_validate
                           schemas.TavilyMapResponse.model_dump)
                  (http_outcome
                     (net (build_request "https://api.tavily.com/map"
                                         search_params))))).
Proof.
  unfold server.tavily_map. rejected_or_run map_tool_run.
Qed.

(** The same for a call by name: every tool sends at most one request, and
    what it does with the answer starts with [http_outcome]. *)
Lemma call_tool_run c log :
  (exists errs,
      server.call_tool TAVILY_API_KEY net c log
      = (log, inl (ValidationError errs)))
  \/ (exists endpoint search_params k,
        server.call_tool TAVILY_API_KEY net c log
        = ((log ++ [build_request endpoint search_params])%list,
           finish k (http_outcome (net (build_request endpoint search_params))))).
Proof.
  destruct c as [a | a | a | a]; cbn [server.call_tool];
    [ destruct (tavily_search_run a log) as [? | [p Hp]]
    | destruct (tavily_extract_run a log) as [? | [p Hp]]
    | destruct (tavily_crawl_run a log) as [? | [p Hp]]
    | destruct (tavily_map_run a log) as [? | [p Hp]] ];
    (now left) || (right; do 3 eexists; exact Hp).
Qed.

Lemma first_request_sent {A : Type} (c : Coroutine A) log r x req :
  c log = ((log ++ [r])%list, x) -> first_request c log = Some req -> req = r.
Proof.
  unfold first_request. intros ->. cbn.
  rewrite nth_error_app2, Nat.sub_diag by apply Nat.le_refl. cbn. congruence.
Qed.

Lemma first_request_none {A : Type} (c : Coroutine A) log x :
  c log = (log, x) -> first_request c log = None.
Proof.
  unfold first_request. intros ->. cbn.
  apply nth_error_None, Nat.le_refl.
Qed.
End Runs.

(** * The claims *)

Section Claims.
Import pydantic.

Context `{FC : FloatCoercion}.
Context `{RC : server.ResultCheck}.
Variable TAVILY_API_KEY : string.
Variable net : network.

#[local] Abbreviation tavily_search := (server.tavily_search TAVILY_API_KEY net).
#[local] Abbreviation tavily_extract := (server.tavily_extract TAVILY_API_KEY net).
#[local] Abbreviation tavily_crawl := (server.tavily_crawl TAVILY_API_KEY net).
#[local] Abbreviation tavily_map := (server.tavily_map TAVILY_API_KEY net).
#[local] Abbreviation call_tool := (server.call_tool TAVILY_API_KEY net).

(** What a run that sent [req] and got a success response with a JSON body
    makes of it. *)
Lemma finish_success k req response response_dict :
  net req = inr response ->
  httpx.is_success response = true ->
  httpx.body response = Some response_dict ->
  finish k (http_outcome (net req)) = k response_dict.
Proof.
  intros -> Hs Hb. unfold http_outcome, finish. rewrite Hs.
  unfold httpx.body in Hb. destruct (httpx.content response); congruence.
Qed.

Lemma finish_status k req response msg :
  net req = inr response ->
  http_outcome (inr response) = inl msg ->
  finish k (http_outcome (net req)) = inl msg.
Proof.
  intros -> H. now rewrite H.
Qed.

Ltac sent_request H Hreq :=
  match type of H with
  | _ \/ _ =>
    let errs := fresh "errs" in
    let p := fresh "search_params" in
    let Hrun := fresh "Hrun" in
    destruct H as [[errs Hrun] | [p Hrun]];
    [ rewrite (first_request_none _ _ _ Hrun) in Hreq; discriminate
    | pose proof (first_request_sent _ _ _ _ _ Hrun Hreq); subst; rewrite Hrun ]
  end.

Section OnSuccess.
Variables (log : list httpx.Request) (req : httpx.Request)
          (response : httpx.Response) (response_dict : json).
Hypothesis Hnet : net req = inr response.
Hypothesis Hsuccess : httpx.is_success response = true.
Hypothesis Hbody : httpx.body response = Some response_dict.

Lemma tavily_extract_on_success a :
  first_request (tavily_extract a) log = Some req ->
  tavily_extract a log = ((log ++ [req])%list, accepted response_dict).
Proof.
  intros Hreq. pose proof (tavily_extract_run TAVILY_API_KEY net a log) as H.
  sent_request H Hreq. now rewrite (finish_success _ _ _ _ Hnet Hsuccess Hbody).
Qed.

Lemma tavily_search_on_success a :
  first_request (tavily_search a) log = Some req ->
  tavily_search a log
  = ((log ++ [req])%list,
     checked schemas.TavilySearchResponse.model_validate
             schemas.TavilySearchResponse.model_dump response_dict).
Proof.
  intros Hreq. pose proof (tavily_search_run TAVILY_API_KEY net a log) as H.
  sent_request H Hreq. now rewrite (finish_success _ _ _ _ Hnet Hsuccess Hbody).
Qed.

Lemma tavily_crawl_on_success a :
  first_request (tavily_crawl a) log = Some req ->
  tavily_crawl a log
  = ((log ++ [req])%list,
     checked schemas.TavilyCrawlResponse.model_validate
             schemas.TavilyCrawlResponse.model_dump response_dict).
Proof.
  intros Hreq. pose proof (tavily_crawl_run TAVILY_API_KEY net a log) as H.
  sent_request H Hreq. now rewrite (finish_success _ _ _ _ Hnet Hsuccess Hbody).
Qed.

Lemma tavily_map_on_success a :
  first_request (tavily_map a) log = Some req ->
  tavily_map a log
  = ((log ++ [req])%list,
     checked schemas.TavilyMapResponse.model_validate
             schemas.TavilyMapResponse.model_dump response_dict).
Proof.
  intros Hreq. pose proof (tavily_map_run TAVILY_API_KEY net a log) as H.
  sent_request H Hreq. now rewrite (finish_success _ _ _ _ Hnet Hsuccess Hbody).
Qed.
End OnSuccess.

Lemma checked_shape {M : Type} (model_validate : json -> result M)
      (model_dump : M -> json) (p : json -> bool) j :
  (forall x, is_ok (model_validate x) = p x) ->
  (forall m, exists d, model_dump m = JDict d) ->
  (p j = true -> exists d, checked model_validate model_dump j = inr (JDict d))
  /\ (p j = false ->
      exists errs, checked model_validate model_dump j = inl (ValidationError errs)).
Proof.
  intros Hp Hdump. unfold checked. rewrite <- Hp.
  destruct (model_validate j) as [m | errs]; cbn; split; try discriminate.
  - intros _. destruct (Hdump m) as [d ->]. now exists d.
  - intros _. now exists errs.
Qed.

(** C1 (as amended): on a success response whose body is a JSON object,
    [tavily-extract] returns the body as it is, whatever the object holds;
    a body that is a list, a string, a number or a boolean is refused by
    the tool wrapper with a [ValueError]. [tavily-search], [tavily-crawl] and
    [tavily-map] return the dump of the validated body, a dict, exactly when
    the body has the shape their response model declares, and raise a
    [ValidationError] when it has not. *)
Theorem extract_returns_objects_others_validate log req response response_dict :
  net req = inr response ->
  httpx.is_success response = true ->
  httpx.body response = Some response_dict ->
  (forall a,
      first_request (tavily_extract a) log = Some req ->
      (forall d, response_dict = JDict d ->
                 tavily_extract a log = ((log ++ [req])%list, inr response_dict))
      /\ (shape.is_dict response_dict = false ->
          response_dict <> JNull ->
          exists msg,
            tavily_extract a log = ((log ++ [req])%list, inl (ValueError msg))))
  /\ (forall a,
        first_request (tavily_search a) log = Some req ->
        tavily_search a log
        = ((log ++ [req])%list,
           checked schemas.TavilySearchResponse.model_validate
                   schemas.TavilySearchResponse.model_dump response_dict)
        /\ (shape.TavilySearchResponse response_dict = true ->
            exists d, tavily_search a log = ((log ++ [req])%list, inr (JDict d)))
        /\ (shape.TavilySearchResponse response_dict = false ->
            exists errs,
              tavily_search a log
              = ((log ++ [req])%list, inl (ValidationError errs))))
  /\ (forall a,
        first_request (tavily_crawl a) log = Some req ->
        tavily_crawl a log
        = ((log ++ [req])%list,
           checked schemas.TavilyCrawlResponse.model_validate
                   schemas.TavilyCrawlResponse.model_dump response_dict)
        /\ (shape.TavilyCrawlResponse response_dict = true ->
            exists d, tavily_crawl a log = ((log ++ [req])%list, inr (JDict d)))
        /\ (shape.TavilyCrawlResponse response_dict = false ->
            exists errs,
              tavily_crawl a log
              = ((log ++ [req])%list, inl (ValidationError errs))))
  /\ (forall a,
        first_request (tavily_map a) log = Some req ->
        tavily_map a log
        = ((log ++ [req])%list,
           checked schemas.TavilyMapResponse.model_validate
                   schemas.TavilyMapResponse.model_dump response_dict)
        /\ (shape.TavilyMapResponse response_dict = true ->
            exists d, tavily_map a log = ((log ++ [req])%list, inr (JDict d)))
        /\ (shape.TavilyMapResponse response_dict = false ->
            exists errs,
              tavily_map a log
              = ((log ++ [req])%list, inl (ValidationError errs)))).
Proof.
  intros Hnet Hs Hb. repeat apply conj; intros a Hreq.
  - rewrite (tavily_extract_on_success _ _ _ _ Hnet Hs Hb a Hreq). split.
    + now intros d ->.
    + intros Hd Hnull. unfold accepted.
      destruct response_dict; try discriminate; try contradiction;
        eexists; reflexivity.
  - rewrite (tavily_search_on_success _ _ _ _ Hnet Hs Hb a Hreq).
    split; [reflexivity |].
    destruct (checked_shape schemas.TavilySearchResponse.model_validate
                schemas.TavilySearchResponse.model_dump
                shape.TavilySearchResponse response_dict
                is_ok_TavilySearchResponse
                ltac:(intros m; eexists; reflexivity)) as [Hyes Hno].
    split; intros Hshape;
      [ destruct (Hyes Hshape) as [d ->]; now exists d
      | destruct (Hno Hshape) as [errs ->]; now exists errs ].
  - rewrite (tavily_crawl_on_success _ _ _ _ Hnet Hs Hb a Hreq).
    split; [reflexivity |].
    destruct (checked_shape schemas.TavilyCrawlResponse.model_validate
                schemas.TavilyCrawlResponse.model_dump
                shape.TavilyCrawlResponse response_dict
                is_ok_TavilyCrawlResponse
                ltac:(intros m; eexists; reflexivity)) as [Hyes Hno].
    split; intros Hshape;
      [ destruct (Hyes Hshape) as [d ->]; now exists d
      | destruct (Hno Hshape) as [errs ->]; now exists errs ].
  - rewrite (tavily_map_on_success _ _ _ _ Hnet Hs Hb a Hreq).
    split; [reflexivity |].
    destruct (checked_shape schemas.TavilyMapResponse.model_validate
                schemas.TavilyMapResponse.model_dump
                shape.TavilyMapResponse response_dict
                is_ok_TavilyMapResponse
                ltac:(intros m; eexists; reflexivity)) as [Hyes Hno].
    split; intros Hshape;
      [ destruct (Hyes Hshape) as [d ->]; now exists d
      | destruct (Hno Hshape) as [errs ->]; now exists errs ].
Qed.

(** A validator outcome that reports a violation makes the call raise a
    [ValidationError] that lists it, and nothing is sent. *)
Lemma call_reports (r : result (Coroutine json)) e log :
  reports r e ->
  exists errs, server.call r log = (log, inl (ValidationError errs)) /\ In e errs.
Proof.
  destruct r as [c | errs]; cbn; [tauto |].
  intros Hin. now exists errs.
Qed.

(** C3: a [tavily-search] call whose [max_results] is below 5 or above 20
    raises a [ValidationError] that names [max_results], and the log of
    requests is the one it started with: no HTTP request was issued. *)
Theorem max_results_out_of_range_rejected a log n :
  server.SearchArguments.max_results a = Some n ->
  n < 5 \/ 20 < n ->
  exists errs,
    tavily_search a log = (log, inl (ValidationError errs))
    /\ In (mkError (if n <? 5 then "greater_than_equal" else "less_than_equal")
                   [Key "max_results"]) errs.
Proof.
  intros Hn Hrange. unfold server.tavily_search. apply call_reports.
  do 9 apply reports_ap_l. apply reports_ap_r.
  rewrite Hn. unfold arg_default, ge_le.
  destruct (Z.leb_spec 5 n) as [H5 | H5]; cbn.
  - destruct (Z.leb_spec n 20) as [H20 | H20]; [lia |].
    destruct (Z.ltb_spec n 5); [lia |]. cbn. now left.
  - destruct (Z.ltb_spec n 5); [| lia]. cbn. now left.
Qed.

(** C4: when the success response to a [tavily-search] call is a JSON
    object without the key [results], the call raises a [ValidationError]
    that reports [results] as missing; no value is returned. *)
Theorem search_missing_results_raises a log req response d :
  first_request (tavily_search a) log = Some req ->
  net req = inr response ->
  httpx.is_success response = true ->
  httpx.body response = Some (JDict d) ->
  dict_get "results" d = None ->
  exists errs,
    tavily_search a log = ((log ++ [req])%list, inl (ValidationError errs))
    /\ In (mkError "missing" [Key "results"]) errs.
Proof.
  intros Hreq Hnet Hs Hb Hmissing.
  pose proof (tavily_search_run TAVILY_API_KEY net a log) as H.
  sent_request H Hreq. rewrite (finish_success _ _ _ _ Hnet Hs Hb).
  unfold checked.
  assert (Hrep : reports (schemas.TavilySearchResponse.model_validate (JDict d))
                         (mkError "missing" [Key "results"])).
  { unfold schemas.TavilySearchResponse.model_validate, schemas.model.
    do 2 apply reports_ap_l. apply reports_ap_r.
    now apply required_absent. }
  destruct (schemas.TavilySearchResponse.model_validate (JDict d)) as [m | errs];
    [contradiction |].
  now exists errs.
Qed.

(** C5: whichever tool is called, when the request it sends is answered
    with status 401 the call raises [ValueError("Invalid API Key")],
    whatever the body of the response is, and that one request is the only
    one sent. *)
Theorem status_401_invalid_api_key c log req response :
  first_request (call_tool c) log = Some req ->
  net req = inr response ->
  httpx.status_code response = 401 ->
  call_tool c log = ((log ++ [req])%list, inl (ValueError "Invalid API Key")).
Proof.
  intros Hreq Hnet Hstatus.
  destruct (call_tool_run TAVILY_API_KEY net c log)
    as [[errs Hrun] | (endpoint & search_params & k & Hrun)].
  - rewrite (first_request_none _ _ _ Hrun) in Hreq. discriminate.
  - pose proof (first_request_sent _ _ _ _ _ Hrun Hreq). subst req.
    rewrite Hrun. f_equal. apply finish_status with (response := response); [easy |].
    unfold http_outcome, httpx.is_success. now rewrite Hstatus.
Qed.

(** C6: whichever tool is called, when the request it sends is answered
    with status 429 the call raises [ValueError("Usage limit exceeded")],
    whatever the body of the response is, and that one request is the only
    one sent. *)
Theorem status_429_usage_limit_exceeded c log req response :
  first_request (call_tool c) log = Some req ->
  net req = inr response ->
  httpx.status_code response = 429 ->
  call_tool c log = ((log ++ [req])%list, inl (ValueError "Usage limit exceeded")).
Proof.
  intros Hreq Hnet Hstatus.
  destruct (call_tool_run TAVILY_API_KEY net c log)
    as [[errs Hrun] | (endpoint & search_params & k & Hrun)].
  - rewrite (first_request_none _ _ _ Hrun) in Hreq. discriminate.
  - pose proof (first_request_sent _ _ _ _ _ Hrun Hreq). subst req.
    rewrite Hrun. f_equal. apply finish_status with (response := response); [easy |].
    unfold http_outcome, httpx.is_success. now rewrite Hstatus.
Qed.

(** The function [search] called with a country sends the topic "general". *)
Lemma search_with_country_sends_general
      query auto_parameters topic search_depth max_results time_range days
      include_raw_content include_answer include_images
      include_image_descriptions include_domains exclude_domains c log req :
  first_request
    (server.search TAVILY_API_KEY net query auto_parameters topic search_depth
                   max_results time_range days include_raw_content
                   include_answer include_images include_image_descriptions
                   include_domains exclude_domains (Some c)) log = Some req ->
  payload_get "topic" req = Some (JStr "general").
Proof.
  unfold first_request, server.search.
  rewrite getitem_base_urls with (url := "https://api.tavily.com/search")
    by reflexivity.
  rewrite validating_tail. cbn [fst].
  rewrite nth_error_app2, Nat.sub_diag by apply Nat.le_refl.
  intros [= <-]. reflexivity.
Qed.

(** C2: a [tavily-search] call with a country sends a payload whose
    [topic] is "general", whatever topic the caller passed. *)
Theorem country_forces_topic_general a log c req :
  server.SearchArguments.country a = Some c ->
  first_request (tavily_search a) log = Some req ->
  payload_get "topic" req = Some (JStr "general").
Proof.
  intros Hc. unfold server.tavily_search. validate_args; cbn [server.call].
  2-15: now intros Hreq; rewrite (first_request_none _ log _ eq_refl) in Hreq.
  match goal with
  | E : arg_default "country" _ _ _ = Ok ?x |- _ =>
    rewrite Hc in E; unfold arg_default, server.optional, literal in E;
      destruct (str_in c server.CountryLiteral); [| discriminate E];
      injection E as <-
  end.
  rewrite first_request_structured. apply search_with_country_sends_general.
Qed.

(** C7: a call that passes only the required parameters issues, for each of
    the four tools, one POST to the tool's endpoint whose payload is made of
    those parameters and of the declared defaults, with [api_key] last; for
    [tavily-search] that is [search_depth] "basic" and [max_results] 10 among
    them. *)
Theorem omitted_parameters_take_defaults log :
  (forall query,
      fst (tavily_search
             (server.SearchArguments.mk (Some query) None None None None None
                                        None None None None None None None None)
             log)
      = (log ++ [httpx.mkRequest
                   "POST" "https://api.tavily.com/search"
                   [("accept", "application/json");
                   ("content-type", "application/json");
                   ("Authorization", ("Bearer " ++ TAVILY_API_KEY)%string);
                   ("user-agent", "tavily-mcp")]
                   (JDict [("query", JStr query);
                           ("auto_parameters", JBool false);
                           ("search_depth", JStr "basic");
                           ("topic", JStr "general");
                           ("days", JInt 3);
                           ("time_range", JNull);
                           ("max_results", JInt 10);
                           ("include_answer", JBool false);
                           ("include_images", JBool false);
                           ("include_image_descriptions", JBool false);
                           ("include_raw_content", JBool false);
                           ("include_domains", JList []);
                           ("exclude_domains", JList []);
                           ("country", JNull);
                           ("api_key", JStr TAVILY_API_KEY)])])%list)
  /\ (forall urls,
        fst (tavily_extract
               (server.ExtractArguments.mk (Some urls) None None None) log)
        = (log ++ [httpx.mkRequest
                     "POST" "https://api.tavily.com/extract"
                     [("accept", "application/json");
                   ("content-type", "application/json");
                   ("Authorization", ("Bearer " ++ TAVILY_API_KEY)%string);
                   ("user-agent", "tavily-mcp")]
                     (JDict [("urls", JList (List.map JStr urls));
                             ("extract_depth", JStr "basic");
                             ("include_images", JBool false);
                             ("format", JStr "markdown");
                             ("api_key", JStr TAVILY_API_KEY)])])%list)
  /\ (forall url instructions,
        fst (tavily_crawl
               (server.CrawlArguments.mk (Some url) (Some instructions) None
                                         None None None None None None None None)
               log)
        = (log ++ [httpx.mkRequest
                     "POST" "https://api.tavily.com/crawl"
                     [("accept", "application/json");
                   ("content-type", "application/json");
                   ("Authorization", ("Bearer " ++ TAVILY_API_KEY)%string);
                   ("user-agent", "tavily-mcp")]
                     (JDict [("url", JStr url);
                             ("instructions", JStr instructions);
                             ("max_depth", JInt 1);
                             ("max_breadth", JInt 20);
                             ("limit", JInt 50);
                             ("select_paths", JList []);
                             ("select_domains", JList []);
                             ("allow_external", JBool false);
                             ("categories", JList []);
                             ("extract_depth", JStr "basic");
                             ("format", JStr "markdown");
                             ("api_key", JStr TAVILY_API_KEY)])])%list)
  /\ (forall url instructions,
        fst (tavily_map
               (server.MapArguments.mk (Some url) (Some instructions) None None
                                       None None None None None)
               log)
        = (log ++ [httpx.mkRequest
                     "POST" "https://api.tavily.com/map"
                     [("accept", "application/json");
                   ("content-type", "application/json");
                   ("Authorization", ("Bearer " ++ TAVILY_API_KEY)%string);
                   ("user-agent", "tavily-mcp")]
                     (JDict [("url", JStr url);
                             ("instructions", JStr instructions);
                             ("max_depth", JInt 1);
                             ("max_breadth", JInt 20);
                             ("limit", JInt 50);
                             ("select_paths", JList []);
                             ("select_domains", JList []);
                             ("allow_external", JBool false);
                             ("categories", JList []);
                             ("api_key", JStr TAVILY_API_KEY)])])%list).
Proof.
  repeat split; intros.
  - unfold server.tavily_search.
    cbn -[server.search server.structured]. rewrite fst_structured.
    unfold server.search.
    rewrite getitem_base_urls with (url := "https://api.tavily.com/search")
      by reflexivity.
    now rewrite validating_tail.
  - unfold server.tavily_extract.
    cbn -[server.extract server.structured]. rewrite fst_structured.
    unfold server.extract.
    rewrite getitem_base_urls with (url := "https://api.tavily.com/extract")
      by reflexivity.
    now rewrite raw_tail.
  - unfold server.tavily_crawl.
    cbn -[server.crawl server.structured]. rewrite fst_structured.
    unfold server.crawl.
    rewrite getitem_base_urls with (url := "https://api.tavily.com/crawl")
      by reflexivity.
    now rewrite validating_tail.
  - unfold server.tavily_map.
    cbn -[server.map server.structured]. rewrite fst_structured.
    unfold server.map.
    rewrite getitem_base_urls with (url := "https://api.tavily.com/map")
      by reflexivity.
    now rewrite validating_tail.
Qed.


(** What [model_validate] accepted is dumped under the declared names. *)
Ltac invert_model H :=
  repeat (apply ap_Ok_inv in H;
          let f := fresh "f" in
          let x := fresh "x" in
          let Hx := fresh "Hx" in
          let Hm := fresh "Hm" in
          destruct H as (f & x & H & Hx & Hm));
  injection H as <-; subst.

Lemma search_response_optional_fields d m k :
  schemas.TavilySearchResponse.model_validate (JDict d) = Ok m ->
  In k schemas.TavilySearchResponse.optional_fields ->
  dict_get k d = None ->
  field k (schemas.TavilySearchResponse.model_dump m) = Some JNull.
Proof.
  unfold schemas.TavilySearchResponse.model_validate, schemas.model.
  intros H Hk Habsent. invert_model H.
  cbn in Hk. destruct Hk as [<- | [<- | [<- | []]]];
    match goal with
    | E : with_default ?name _ _ _ = Ok _ |- field ?name _ = _ =>
      rewrite (with_default_absent _ _ _ _ Habsent) in E; injection E as <-
    end; reflexivity.
Qed.

Lemma model_validate_dict {M : Type} (fields : list (string * json) -> result M)
      j m :
  schemas.model fields j = Ok m -> exists d, j = JDict d.
Proof.
  destruct j; cbn; try discriminate. intros _. now eexists.
Qed.

(** C10: on a success response whose body the response model accepts,
    [tavily-search], [tavily-crawl] and [tavily-map] return a dict whose
    keys are the declared field names, in order; for [tavily-search] each
    optional field the body lacks is there with the value null. Whether a
    body is accepted, and what is returned for it, depends on its declared
    fields only: keys that are not declared are ignored. *)
Theorem returned_keys_are_declared_fields log req response response_dict :
  net req = inr response ->
  httpx.is_success response = true ->
  httpx.body response = Some response_dict ->
  (forall a m,
      first_request (tavily_search a) log = Some req ->
      schemas.TavilySearchResponse.model_validate response_dict = Ok m ->
      exists d,
        tavily_search a log = ((log ++ [req])%list, inr (JDict d))
        /\ keys d = schemas.TavilySearchResponse.field_names
        /\ (forall k, In k schemas.TavilySearchResponse.optional_fields ->
                      field k response_dict = None ->
                      dict_get k d = Some JNull))
  /\ (forall a m,
        first_request (tavily_crawl a) log = Some req ->
        schemas.TavilyCrawlResponse.model_validate response_dict = Ok m ->
        exists d,
          tavily_crawl a log = ((log ++ [req])%list, inr (JDict d))
          /\ keys d = schemas.TavilyCrawlResponse.field_names)
  /\ (forall a m,
        first_request (tavily_map a) log = Some req ->
        schemas.TavilyMapResponse.model_validate response_dict = Ok m ->
        exists d,
          tavily_map a log = ((log ++ [req])%list, inr (JDict d))
          /\ keys d = schemas.TavilyMapResponse.field_names)
  /\ (forall d d',
        (forall k, In k schemas.TavilySearchResponse.field_names ->
                   dict_get k d = dict_get k d') ->
        schemas.TavilySearchResponse.model_validate (JDict d)
        = schemas.TavilySearchResponse.model_validate (JDict d'))
  /\ (forall d d',
        (forall k, In k schemas.TavilyCrawlResponse.field_names ->
                   dict_get k d = dict_get k d') ->
        schemas.TavilyCrawlResponse.model_validate (JDict d)
        = schemas.TavilyCrawlResponse.model_validate (JDict d'))
  /\ (forall d d',
        (forall k, In k schemas.TavilyMapResponse.field_names ->
                   dict_get k d = dict_get k d') ->
        schemas.TavilyMapResponse.model_validate (JDict d)
        = schemas.TavilyMapResponse.model_validate (JDict d')).
Proof.
  intros Hnet Hs Hb.
  pose proof (tavily_search_on_success log req response response_dict
                Hnet Hs Hb) as Hsearch.
  pose proof (tavily_crawl_on_success log req response response_dict
                Hnet Hs Hb) as Hcrawl.
  pose proof (tavily_map_on_success log req response response_dict
                Hnet Hs Hb) as Hmap.
  repeat apply conj.
  - intros a m Hreq Hm. rewrite (Hsearch a Hreq). unfold checked. rewrite Hm.
    eexists. split; [reflexivity |]. split; [reflexivity |].
    intros k Hk Habsent.
    destruct (model_validate_dict _ _ _ Hm) as [d ->].
    exact (search_response_optional_fields d m k Hm Hk Habsent).
  - intros a m Hreq Hm. rewrite (Hcrawl a Hreq). unfold checked. rewrite Hm.
    eexists. split; reflexivity.
  - intros a m Hreq Hm. rewrite (Hmap a Hreq). unfold checked. rewrite Hm.
    eexists. split; reflexivity.
  - intros d d' Hagree.
    unfold schemas.TavilySearchResponse.model_validate, schemas.model,
      required, with_default.
    now rewrite !Hagree by (cbn; tauto).
  - intros d d' Hagree.
    unfold schemas.TavilyCrawlResponse.model_validate, schemas.model,
      required, with_default.
    now rewrite !Hagree by (cbn; tauto).
  - intros d d' Hagree.
    unfold schemas.TavilyMapResponse.model_validate, schemas.model,
      required, with_default.
    now rewrite !Hagree by (cbn; tauto).
Qed.

(** Any other status outside the success range raises [HTTPStatusError] with
    the response, for each tool. *)
Lemma other_status_raises_HTTPStatusError c log req response :
  first_request (call_tool c) log = Some req ->
  net req = inr response ->
  httpx.is_success response = false ->
  httpx.status_code response <> 401 ->
  httpx.status_code response <> 429 ->
  call_tool c log = ((log ++ [req])%list, inl (HTTPStatusError response)).
Proof.
  intros Hreq Hnet Hs H401 H429.
  destruct (call_tool_run TAVILY_API_KEY net c log)
    as [[errs Hrun] | (endpoint & search_params & k & Hrun)].
  - rewrite (first_request_none _ _ _ Hrun) in Hreq. discriminate.
  - pose proof (first_request_sent _ _ _ _ _ Hrun Hreq). subst req.
    rewrite Hrun. f_equal. apply finish_status with (response := response); [easy |].
    unfold http_outcome. rewrite Hs.
    destruct (Z.eqb_spec (httpx.status_code response) 401); [contradiction |].
    now destruct (Z.eqb_spec (httpx.status_code response) 429).
Qed.

(** A transport failure of [client.post] propagates, for each tool. *)
Lemma transport_failure_propagates c log req msg :
  first_request (call_tool c) log = Some req ->
  net req = inl msg ->
  call_tool c log = ((log ++ [req])%list, inl (RequestError msg)).
Proof.
  intros Hreq Hnet.
  destruct (call_tool_run TAVILY_API_KEY net c log)
    as [[errs Hrun] | (endpoint & search_params & k & Hrun)].
  - rewrite (first_request_none _ _ _ Hrun) in Hreq. discriminate.
  - pose proof (first_request_sent _ _ _ _ _ Hrun Hreq). subst req.
    rewrite Hrun, Hnet. reflexivity.
Qed.
End Claims.

(** The body [tavily-extract] returned at the sample call is one its own
    response model rejects. *)
Example extract_schema_rejects_search_body :
  reports (schemas.TavilyExtractResponse.model_validate
             (FC := strict_floats) Samples.search_body)
          (pydantic.mkError "missing" [pydantic.Key "failed_results"]).
Proof.
  cbn. tauto.
Qed.

(** C1 (as stated) fails: the success body is a JSON list, and the
    [tavily-extract] call ends with the wrapper's [ValueError] instead of
    returning the parsed body. *)
Lemma extract_refuses_a_list_body :
  ~ (forall (RC : server.ResultCheck) (TAVILY_API_KEY : string)
            (net : network) a log req response response_dict,
        first_request (server.tavily_extract TAVILY_API_KEY net a) log = Some req ->
        net req = inr response ->
        httpx.is_success response = true ->
        httpx.body response = Some response_dict ->
        server.tavily_extract TAVILY_API_KEY net a log
        = ((log ++ [req])%list, inr response_dict)).
Proof.
  intros claim.
  pose proof (claim Samples.messages Samples.key
                    (always (Samples.ok Samples.list_body))
                    Samples.extract_args [] Samples.extract_request
                    (Samples.ok Samples.list_body) Samples.list_body
                    eq_refl eq_refl eq_refl eq_refl) as Hrun.
  vm_compute in Hrun. discriminate Hrun.
Qed.


(** ** Startup *)

Section StartupClaims.
Variable getenv : string -> option string.
Variable int : string -> option Z.

(** C9: without [TAVILY_API_KEY] in the environment, either entry point
    ends in [SystemExit(-1)] after printing the complaint, at a point where
    no tool is registered on the server and nothing is served: no tool is
    callable. *)
Theorem missing_credential_exits_before_tools entry :
  getenv "TAVILY_API_KEY" = None ->
  In entry [server.run_sse getenv int; server.run_stdio getenv int] ->
  exists st,
    entry server.started = (st, inl (server.mkSystemExit (-1)))
    /\ server.stdout st = ["Tavily API KEY Does not exist!! "]
    /\ option_map server.tools (server.mcp_server st) = Some []
    /\ server.serving st = None
    /\ server.callable_tools st = [].
Proof.
  intros Hkey [<- | [<- | []]];
    unfold server.run_sse, server.run_stdio, server.import_server;
    rewrite Hkey; eexists; repeat split.
Qed.

(** With the key set, the four tools are registered and served. *)
Lemma credential_serves_the_four_tools k :
  getenv "TAVILY_API_KEY" = Some k ->
  exists st,
    server.run_sse getenv int server.started = (st, inr tt)
    /\ server.callable_tools st
       = ["tavily-search"; "tavily-extract"; "tavily-crawl"; "tavily-map"].
Proof.
  intros Hkey. unfold server.run_sse, server.import_server.
  rewrite Hkey. eexists. split; reflexivity.
Qed.
End StartupClaims.

(** ** The claims at the sample calls *)

Lemma extract_returns_objects_others_validate_witness :
  shape.TavilyExtractResponse (FC := strict_floats) Samples.search_body = false
  /\ server.tavily_extract (RC := Samples.messages) Samples.key
                           (always (Samples.ok Samples.search_body))
                           Samples.extract_args []
     = ([Samples.extract_request], inr Samples.search_body)
  /\ (exists d,
         server.tavily_search (FC := strict_floats) (RC := Samples.messages)
                              Samples.key (always (Samples.ok Samples.search_body))
                              Samples.search_args []
         = ([Samples.search_request], inr (JDict d)))
  /\ (exists errs,
         server.tavily_search (FC := strict_floats) (RC := Samples.messages)
                              Samples.key (always (Samples.ok Samples.extract_body))
                              Samples.search_args []
         = ([Samples.search_request], inl (ValidationError errs))).
Proof.
  split; [reflexivity |]. split; [| split].
  - destruct (extract_returns_objects_others_validate
                (FC := strict_floats) (RC := Samples.messages) Samples.key
                (always (Samples.ok Samples.search_body)) []
                Samples.extract_request (Samples.ok Samples.search_body)
                Samples.search_body eq_refl eq_refl eq_refl) as [Hextract _].
    destruct (Hextract Samples.extract_args eq_refl) as [Hobject _].
    exact (Hobject Samples.search_body_dict eq_refl).
  - destruct (extract_returns_objects_others_validate
                (FC := strict_floats) (RC := Samples.messages) Samples.key
                (always (Samples.ok Samples.search_body)) []
                Samples.search_request (Samples.ok Samples.search_body)
                Samples.search_body eq_refl eq_refl eq_refl)
      as (_ & Hsearch & _).
    destruct (Hsearch Samples.search_args eq_refl) as (_ & Hshape & _).
    exact (Hshape eq_refl).
  - destruct (extract_returns_objects_others_validate
                (FC := strict_floats) (RC := Samples.messages) Samples.key
                (always (Samples.ok Samples.extract_body)) []
                Samples.search_request (Samples.ok Samples.extract_body)
                Samples.extract_body eq_refl eq_refl eq_refl)
      as (_ & Hsearch & _).
    destruct (Hsearch Samples.search_args eq_refl) as (_ & _ & Hshape).
    exact (Hshape eq_refl).
Defined.

Lemma country_forces_topic_general_witness :
  server.SearchArguments.topic Samples.search_args = Some "news"
  /\ payload_get "topic" Samples.search_request = Some (JStr "general").
Proof.
  split; [reflexivity |].
  apply (country_forces_topic_general
           (FC := strict_floats) (RC := Samples.messages) Samples.key
           (always (Samples.ok Samples.search_body))
           Samples.search_args [] "france" Samples.search_request);
    reflexivity.
Defined.

Lemma max_results_out_of_range_rejected_witness :
  (exists errs,
      server.tavily_search (FC := strict_floats) (RC := Samples.messages) Samples.key
                           (always (Samples.ok Samples.search_body))
                           Samples.too_few []
      = ([], inl (ValidationError errs))
      /\ In (pydantic.mkError "greater_than_equal" [pydantic.Key "max_results"]) errs)
  /\ (exists errs,
         server.tavily_search (FC := strict_floats) (RC := Samples.messages) Samples.key
                              (always (Samples.ok Samples.search_body))
                              Samples.too_many []
         = ([], inl (ValidationError errs))
         /\ In (pydantic.mkError "less_than_equal" [pydantic.Key "max_results"]) errs).
Proof.
  split.
  - apply (max_results_out_of_range_rejected
             (FC := strict_floats) (RC := Samples.messages) Samples.key
             (always (Samples.ok Samples.search_body)) Samples.too_few [] 4);
      [reflexivity | lia].
  - apply (max_results_out_of_range_rejected
             (FC := strict_floats) (RC := Samples.messages) Samples.key
             (always (Samples.ok Samples.search_body)) Samples.too_many [] 21);
      [reflexivity | lia].
Defined.

Lemma search_missing_results_raises_witness :
  exists errs,
    server.tavily_search
      (FC := strict_floats) (RC := Samples.messages) Samples.key
      (always (Samples.ok (JDict Samples.search_body_without_results)))
      Samples.search_args []
    = ([Samples.search_request], inl (ValidationError errs))
    /\ In (pydantic.mkError "missing" [pydantic.Key "results"]) errs.
Proof.
  apply (search_missing_results_raises
           (FC := strict_floats) (RC := Samples.messages) Samples.key
           (always (Samples.ok (JDict Samples.search_body_without_results)))
           Samples.search_args [] Samples.search_request
           (Samples.ok (JDict Samples.search_body_without_results))
           Samples.search_body_without_results);
    reflexivity.
Defined.

Lemma status_401_invalid_api_key_witness :
  server.call_tool (FC := strict_floats) (RC := Samples.messages) Samples.key (always Samples.unauthorized)
                   (server.call_tavily_search Samples.search_args) []
  = ([Samples.search_request], inl (ValueError "Invalid API Key")).
Proof.
  apply (status_401_invalid_api_key
           (FC := strict_floats) (RC := Samples.messages) Samples.key (always Samples.unauthorized)
           (server.call_tavily_search Samples.search_args) []
           Samples.search_request Samples.unauthorized);
    reflexivity.
Defined.

Lemma status_429_usage_limit_exceeded_witness :
  server.call_tool (FC := strict_floats) (RC := Samples.messages) Samples.key
                   (always Samples.too_many_requests)
                   (server.call_tavily_map Samples.map_args) []
  = ([Samples.map_request], inl (ValueError "Usage limit exceeded")).
Proof.
  apply (status_429_usage_limit_exceeded
           (FC := strict_floats) (RC := Samples.messages) Samples.key (always Samples.too_many_requests)
           (server.call_tavily_map Samples.map_args) []
           Samples.map_request Samples.too_many_requests);
    reflexivity.
Defined.


Lemma missing_credential_exits_before_tools_witness :
  exists st,
    server.run_sse Samples.no_environ Samples.int_never server.started
    = (st, inl (server.mkSystemExit (-1)))
    /\ server.stdout st = ["Tavily API KEY Does not exist!! "]
    /\ option_map server.tools (server.mcp_server st) = Some []
    /\ server.serving st = None
    /\ server.callable_tools st = [].
Proof.
  apply (missing_credential_exits_before_tools
           Samples.no_environ Samples.int_never
           (server.run_sse Samples.no_environ Samples.int_never));
    [reflexivity | now left].
Defined.

Lemma returned_keys_are_declared_fields_witness :
  exists d,
    server.tavily_search (FC := strict_floats) (RC := Samples.messages) Samples.key
                         (always (Samples.ok Samples.search_body))
                         Samples.search_args []
    = ([Samples.search_request], inr (JDict d))
    /\ keys d = ["query"; "answer"; "images"; "results"; "response_time";
                 "auto_parameters"]
    /\ dict_get "answer" d = Some JNull.
Proof.
  destruct (returned_keys_are_declared_fields
              (FC := strict_floats) (RC := Samples.messages) Samples.key
              (always (Samples.ok Samples.search_body)) []
              Samples.search_request (Samples.ok Samples.search_body)
              Samples.search_body eq_refl eq_refl eq_refl) as [Hsearch _].
  destruct (Hsearch Samples.search_args
                    (schemas.TavilySearchResponse.mk
                       "rocq prover" None None
                       [schemas.SearchResult.mk "Rocq" "https://rocq-prover.org"
                                                "The Rocq Prover" Samples.half
                                                None None]
                       Samples.half None)
                    eq_refl eq_refl) as (d & Hrun & Hkeys & Hnull).
  exists d. repeat split; [exact Hrun | exact Hkeys |].
  apply Hnull; [now left | reflexivity].
Defined.


(** * Further properties *)

(** ** The parameter contract of each tool *)

Section ValidatorOutcomes.
Import pydantic contract.
Local Open Scope pydantic_scope.

Lemma ap_outcome {A B : Type} e1 (f : A -> B) e2 (a : A) :
  outcome e1 f <*> outcome e2 a = outcome (e1 ++ e2) (f a).
Proof.
  destruct e1 as [| x1 e1], e2 as [| x2 e2]; cbn; try reflexivity.
  now rewrite app_nil_r.
Qed.

Lemma arg_any {A : Type} name (dflt : A) o :
  arg name any o = outcome (missing_if name o) (or_default dflt o).
Proof. now destruct o. Qed.

Lemma arg_default_any {A : Type} name (dflt : A) o :
  arg_default name any dflt o = outcome [] (or_default dflt o).
Proof. now destruct o. Qed.

Lemma arg_default_literal name members dflt o :
  arg_default name (literal members) dflt o
  = outcome (outside name members o) (or_default dflt o).
Proof.
  destruct o as [s |]; [| reflexivity].
  unfold arg_default, literal, outside. now destruct (str_in s members).
Qed.

Lemma arg_default_optional name members o :
  arg_default name (server.optional members) None o
  = outcome (outside name members o) o.
Proof.
  destruct o as [s |]; [| reflexivity].
  unfold arg_default, server.optional, literal, outside.
  now destruct (str_in s members).
Qed.

Lemma arg_default_ge name lo dflt o :
  arg_default name (ge lo) dflt o = outcome (below name lo o) (or_default dflt o).
Proof.
  destruct o as [n |]; [| reflexivity].
  unfold arg_default, ge, below.
  destruct (Z.leb_spec lo n), (Z.ltb_spec n lo); try lia; reflexivity.
Qed.

Lemma arg_default_ge_le name lo hi dflt o :
  arg_default name (ge_le lo hi) dflt o
  = outcome (out_of_range name lo hi o) (or_default dflt o).
Proof.
  destruct o as [n |]; [| reflexivity].
  unfold arg_default, ge_le, out_of_range.
  destruct (Z.leb_spec lo n), (Z.ltb_spec n lo); try lia; cbn; [| reflexivity].
  destruct (Z.leb_spec n hi), (Z.ltb_spec hi n); try lia; reflexivity.
Qed.

Lemma items_from_literal members i l :
  items_from (literal members) i l = outcome (items_outside_from members i l) l.
Proof.
  revert i. induction l as [| s l IH]; intros i; [reflexivity |].
  cbn [items_from items_outside_from]. rewrite IH.
  unfold literal. destruct (str_in s members); cbn.
  - now destruct (items_outside_from members (S i) l).
  - now destruct (items_outside_from members (S i) l).
Qed.

Lemma arg_default_items name members o :
  arg_default name (items_from (literal members) 0%nat) [] o
  = outcome (items_outside name members o) (or_default [] o).
Proof.
  destruct o as [l |]; [| reflexivity].
  unfold arg_default, items_outside. rewrite items_from_literal.
  now destruct (items_outside_from members 0 l).
Qed.

Lemma call_outcome `{RC : server.ResultCheck} errs (c : Coroutine json) log :
  server.call (outcome errs c) log
  = match errs with
    | [] => server.structured c log
    | _ => (log, inl (ValidationError errs))
    end.
Proof. now destruct errs. Qed.

Lemma Ok_outcome {A : Type} (a : A) : Ok a = outcome [] a.
Proof. reflexivity. Qed.

End ValidatorOutcomes.

(** Rewrites the validation of a registered tool, whose function is [head],
    into the outcome given by its list of violations. *)
Ltac spell_out head :=
  rewrite (Ok_outcome head);
  rewrite ?arg_default_literal, ?arg_default_optional, ?arg_default_ge,
    ?arg_default_ge_le, ?arg_default_items, ?arg_default_any;
  rewrite ?(arg_any _ ""), ?(arg_any _ (@nil string));
  rewrite !ap_outcome, call_outcome;
  cbn [app]; rewrite ?app_nil_r, <- ?app_assoc.

(** Splits on whether the call violates anything; what is left is the run
    of the function or the rejection. *)
Ltac violations_or_run :=
  match goal with
  | |- context [match ?errs with [] => _ | _ :: _ => _ end] => destruct errs
  end.

Ltac search_wire K net :=
  unfold server.tavily_search, contract.search_violations;
  spell_out (server.search K net); violations_or_run;
  [ rewrite fst_structured; unfold server.search;
    rewrite getitem_base_urls with (url := "https://api.tavily.com/search")
      by reflexivity;
    rewrite validating_tail; cbn [fst]
  | cbn [fst] ].

Ltac extract_wire K net :=
  unfold server.tavily_extract, contract.extract_violations;
  spell_out (server.extract K net); violations_or_run;
  [ rewrite fst_structured; unfold server.extract;
    rewrite getitem_base_urls with (url := "https://api.tavily.com/extract")
      by reflexivity;
    rewrite raw_tail; cbn [fst]
  | cbn [fst] ].

Ltac crawl_wire K net :=
  unfold server.tavily_crawl, contract.crawl_violations;
  spell_out (server.crawl K net); violations_or_run;
  [ rewrite fst_structured; unfold server.crawl;
    rewrite getitem_base_urls with (url := "https://api.tavily.com/crawl")
      by reflexivity;
    rewrite validating_tail; cbn [fst]
  | cbn [fst] ].

Ltac map_wire K net :=
  unfold server.tavily_map, contract.map_violations;
  spell_out (server.map K net); violations_or_run;
  [ rewrite fst_structured; unfold server.map;
    rewrite getitem_base_urls with (url := "https://api.tavily.com/map")
      by reflexivity;
    rewrite validating_tail; cbn [fst]
  | cbn [fst] ].

Section Contracts.
Import pydantic contract.
Local Open Scope pydantic_scope.

Context `{FC : FloatCoercion}.
Context `{RC : server.ResultCheck}.
Variable TAVILY_API_KEY : string.
Variable net : network.

(** X1: a [tavily-search] call that violates its parameter contract raises a
    [ValidationError] listing exactly the violations, in parameter order, and
    sends nothing; a call that violates nothing runs [search] on the values
    passed, with the declared default for each parameter left out, under
    the wrapper's check of the result. A required parameter left out is
    reported as [missing_argument]. *)
Theorem tavily_search_contract a log :
  server.tavily_search TAVILY_API_KEY net a log
  = match search_violations a with
    | [] =>
      server.structured
        (server.search TAVILY_API_KEY net
        (or_default "" (server.SearchArguments.query a))
        (or_default false (server.SearchArguments.auto_parameters a))
        (or_default "general" (server.SearchArguments.topic a))
        (or_default "basic" (server.SearchArguments.search_depth a))
        (or_default 10 (server.SearchArguments.max_results a))
        (server.SearchArguments.time_range a)
        (or_default 3 (server.SearchArguments.days a))
        (or_default false (server.SearchArguments.include_raw_content a))
        (or_default false (server.SearchArguments.include_answer a))
        (or_default false (server.SearchArguments.include_images a))
        (or_default false (server.SearchArguments.include_image_descriptions a))
        (or_default [] (server.SearchArguments.include_domains a))
        (or_default [] (server.SearchArguments.exclude_domains a))
        (server.SearchArguments.country a)) log
    | _ => (log, inl (ValidationError (search_violations a)))
    end.
Proof.
  unfold server.tavily_search, search_violations.
  spell_out (server.search TAVILY_API_KEY net). reflexivity.
Qed.

(** X2: a [tavily-extract] call that violates its parameter contract raises a
    [ValidationError] listing exactly the violations, in parameter order, and
    sends nothing; a call that violates nothing runs [extract] on the values
    passed, with the declared default for each parameter left out, under
    the wrapper's check of the result. A required parameter left out is
    reported as [missing_argument]. *)
Theorem tavily_extract_contract a log :
  server.tavily_extract TAVILY_API_KEY net a log
  = match extract_violations a with
    | [] =>
      server.structured
        (server.extract TAVILY_API_KEY net
        (or_default [] (server.ExtractArguments.urls a))
        (or_default "basic" (server.ExtractArguments.extract_depth a))
        (or_default false (server.ExtractArguments.include_images a))
        (or_default "markdown" (server.ExtractArguments.format a))) log
    | _ => (log, inl (ValidationError (extract_violations a)))
    end.
Proof.
  unfold server.tavily_extract, extract_violations.
  spell_out (server.extract TAVILY_API_KEY net). reflexivity.
Qed.

(** X3: a [tavily-crawl] call that violates its parameter contract raises a
    [ValidationError] listing exactly the violations, in parameter order
    (a category outside the list under its index), and sends nothing; a call
    that violates nothing runs [crawl] on the values passed, with the
    declared default for each parameter left out, under the wrapper's check
    of the result. A required parameter left out is reported as
    [missing_argument]. *)
Theorem tavily_crawl_contract a log :
  server.tavily_crawl TAVILY_API_KEY net a log
  = match crawl_violations a with
    | [] =>
      server.structured
        (server.crawl TAVILY_API_KEY net
        (or_default "" (server.CrawlArguments.url a))
        (or_default "" (server.CrawlArguments.instructions a))
        (or_default 1 (server.CrawlArguments.max_depth a))
        (or_default 20 (server.CrawlArguments.max_breadth a))
        (or_default 50 (server.CrawlArguments.limit a))
        (or_default [] (server.CrawlArguments.select_paths a))
        (or_default [] (server.CrawlArguments.select_domains a))
        (or_default false (server.CrawlArguments.allow_external a))
        (or_default [] (server.CrawlArguments.categories a))
        (or_default "basic" (server.CrawlArguments.extract_depth a))
        (or_default "markdown" (server.CrawlArguments.format a))) log
    | _ => (log, inl (ValidationError (crawl_violations a)))
    end.
Proof.
  unfold server.tavily_crawl, crawl_violations.
  spell_out (server.crawl TAVILY_API_KEY net). reflexivity.
Qed.

(** X4: a [tavily-map] call that violates its parameter contract raises a
    [ValidationError] listing exactly the violations, in parameter order
    (a category outside the list under its index), and sends nothing; a call
    that violates nothing runs [map] on the values passed, with the declared
    default for each parameter left out, under the wrapper's check of the
    result. A required parameter left out is reported as
    [missing_argument]. *)
Theorem tavily_map_contract a log :
  server.tavily_map TAVILY_API_KEY net a log
  = match map_violations a with
    | [] =>
      server.structured
        (server.map TAVILY_API_KEY net
        (or_default "" (server.MapArguments.url a))
        (or_default "" (server.MapArguments.instructions a))
        (or_default 1 (server.MapArguments.max_depth a))
        (or_default 20 (server.MapArguments.max_breadth a))
        (or_default 50 (server.MapArguments.limit a))
        (or_default [] (server.MapArguments.select_paths a))
        (or_default [] (server.MapArguments.select_domains a))
        (or_default false (server.MapArguments.allow_external a))
        (or_default [] (server.MapArguments.categories a))) log
    | _ => (log, inl (ValidationError (map_violations a)))
    end.
Proof.
  unfold server.tavily_map, map_violations.
  spell_out (server.map TAVILY_API_KEY net). reflexivity.
Qed.

End Contracts.

(** ** What goes on the wire *)

Section Wire.
Import pydantic contract.

Context `{FC : FloatCoercion}.
Context `{RC : server.ResultCheck}.
Variable TAVILY_API_KEY : string.
Variable net : network.

#[local] Abbreviation build_request := (server.build_request TAVILY_API_KEY).

(** X5: after a [tavily-search] call the log holds one more request when the
    call violates nothing, and is unchanged otherwise. The request is a POST
    to the search endpoint from a client built with the four headers of the
    module; its payload carries every parameter as passed or defaulted,
    except that [topic] is "general" when a country is given, and [api_key]
    last. *)
Theorem tavily_search_wire a log :
  fst (server.tavily_search TAVILY_API_KEY net a log)
  = match search_violations a with
    | [] =>
      (log ++ [httpx.mkRequest
         "POST" "https://api.tavily.com/search"
         [("accept", "application/json");
          ("content-type", "application/json");
          ("Authorization", ("Bearer " ++ TAVILY_API_KEY)%string);
          ("user-agent", "tavily-mcp")]
         (JDict
            [("query", JStr (or_default "" (server.SearchArguments.query a)));
             ("auto_parameters",
              JBool (or_default false (server.SearchArguments.auto_parameters a)));
             ("search_depth",
              JStr (or_default "basic" (server.SearchArguments.search_depth a)));
             ("topic",
              JStr (match server.SearchArguments.country a with
                    | Some _ => "general"
                    | None => or_default "general" (server.SearchArguments.topic a)
                    end));
             ("days", JInt (or_default 3 (server.SearchArguments.days a)));
             ("time_range",
              json_of_option JStr (server.SearchArguments.time_range a));
             ("max_results",
              JInt (or_default 10 (server.SearchArguments.max_results a)));
             ("include_answer",
              JBool (or_default false (server.SearchArguments.include_answer a)));
             ("include_images",
              JBool (or_default false (server.SearchArguments.include_images a)));
             ("include_image_descriptions",
              JBool (or_default false
                       (server.SearchArguments.include_image_descriptions a)));
             ("include_raw_content",
              JBool (or_default false
                       (server.SearchArguments.include_raw_content a)));
             ("include_domains",
              json_strs (or_default [] (server.SearchArguments.include_domains a)));
             ("exclude_domains",
              json_strs (or_default [] (server.SearchArguments.exclude_domains a)));
             ("country", json_of_option JStr (server.SearchArguments.country a));
             ("api_key", JStr TAVILY_API_KEY)])])%list
    | _ => log
    end.
Proof.
  search_wire TAVILY_API_KEY net; reflexivity.
Qed.

(** X6: after a [tavily-extract] call the log holds one more request when the
    call violates nothing, and is unchanged otherwise. The request is a POST
    to the extract endpoint from a client built with the four headers of the
    module; its payload carries the URLs as passed, the other parameters as
    passed or defaulted, and [api_key] last. *)
Theorem tavily_extract_wire a log :
  fst (server.tavily_extract TAVILY_API_KEY net a log)
  = match extract_violations a with
    | [] =>
      (log ++ [httpx.mkRequest
         "POST" "https://api.tavily.com/extract"
         [("accept", "application/json");
          ("content-type", "application/json");
          ("Authorization", ("Bearer " ++ TAVILY_API_KEY)%string);
          ("user-agent", "tavily-mcp")]
         (JDict
            [("urls", json_strs (or_default [] (server.ExtractArguments.urls a)));
             ("extract_depth",
              JStr (or_default "basic" (server.ExtractArguments.extract_depth a)));
             ("include_images",
              JBool (or_default false (server.ExtractArguments.include_images a)));
             ("format",
              JStr (or_default "markdown" (server.ExtractArguments.format a)));
             ("api_key", JStr TAVILY_API_KEY)])])%list
    | _ => log
    end.
Proof.
  extract_wire TAVILY_API_KEY net; reflexivity.
Qed.

(** X7: after a [tavily-crawl] call the log holds one more request when the
    call violates nothing, and is unchanged otherwise. The request is a POST
    to the crawl endpoint from a client built with the four headers of the
    module; its payload carries every parameter as passed or defaulted, and
    [api_key] last. *)
Theorem tavily_crawl_wire a log :
  fst (server.tavily_crawl TAVILY_API_KEY net a log)
  = match crawl_violations a with
    | [] =>
      (log ++ [httpx.mkRequest
         "POST" "https://api.tavily.com/crawl"
         [("accept", "application/json");
          ("content-type", "application/json");
          ("Authorization", ("Bearer " ++ TAVILY_API_KEY)%string);
          ("user-agent", "tavily-mcp")]
         (JDict
            [("url", JStr (or_default "" (server.CrawlArguments.url a)));
             ("instructions",
              JStr (or_default "" (server.CrawlArguments.instructions a)));
             ("max_depth", JInt (or_default 1 (server.CrawlArguments.max_depth a)));
             ("max_breadth",
              JInt (or_default 20 (server.CrawlArguments.max_breadth a)));
             ("limit", JInt (or_default 50 (server.CrawlArguments.limit a)));
             ("select_paths",
              json_strs (or_default [] (server.CrawlArguments.select_paths a)));
             ("select_domains",
              json_strs (or_default [] (server.CrawlArguments.select_domains a)));
             ("allow_external",
              JBool (or_default false (server.CrawlArguments.allow_external a)));
             ("categories",
              json_strs (or_default [] (server.CrawlArguments.categories a)));
             ("extract_depth",
              JStr (or_default "basic" (server.CrawlArguments.extract_depth a)));
             ("format",
              JStr (or_default "markdown" (server.CrawlArguments.format a)));
             ("api_key", JStr TAVILY_API_KEY)])])%list
    | _ => log
    end.
Proof.
  crawl_wire TAVILY_API_KEY net; reflexivity.
Qed.

(** X8: after a [tavily-map] call the log holds one more request when the call
    violates nothing, and is unchanged otherwise. The request is a POST to
    the map endpoint from a client built with the four headers of the
    module; its payload carries every parameter as passed or defaulted,
    without [extract_depth] and [format], and [api_key] last. *)
Theorem tavily_map_wire a log :
  fst (server.tavily_map TAVILY_API_KEY net a log)
  = match map_violations a with
    | [] =>
      (log ++ [httpx.mkRequest
         "POST" "https://api.tavily.com/map"
         [("accept", "application/json");
          ("content-type", "application/json");
          ("Authorization", ("Bearer " ++ TAVILY_API_KEY)%string);
          ("user-agent", "tavily-mcp")]
         (JDict
            [("url", JStr (or_default "" (server.MapArguments.url a)));
             ("instructions",
              JStr (or_default "" (server.MapArguments.instructions a)));
             ("max_depth", JInt (or_default 1 (server.MapArguments.max_depth a)));
             ("max_breadth",
              JInt (or_default 20 (server.MapArguments.max_breadth a)));
             ("limit", JInt (or_default 50 (server.MapArguments.limit a)));
             ("select_paths",
              json_strs (or_default [] (server.MapArguments.select_paths a)));
             ("select_domains",
              json_strs (or_default [] (server.MapArguments.select_domains a)));
             ("allow_external",
              JBool (or_default false (server.MapArguments.allow_external a)));
             ("categories",
              json_strs (or_default [] (server.MapArguments.categories a)));
             ("api_key", JStr TAVILY_API_KEY)])])%list
    | _ => log
    end.
Proof.
  map_wire TAVILY_API_KEY net; reflexivity.
Qed.

Lemma nth_error_last {A : Type} (l : list A) (x y : A) :
  nth_error (l ++ [x]) (List.length l) = Some y -> y = x.
Proof.
  rewrite nth_error_app2, Nat.sub_diag by apply Nat.le_refl. cbn. congruence.
Qed.

Lemma nth_error_end {A : Type} (l : list A) (y : A) :
  nth_error l (List.length l) = Some y -> False.
Proof.
  intros H. assert (Hn : nth_error l (List.length l) = None)
    by apply nth_error_None, Nat.le_refl.
  congruence.
Qed.

(** X9: whatever tool is called, the request it issues is a POST to one of the
    four endpoints, from a client built with exactly the four headers of the
    module, and carries the key twice: as the bearer token among those
    headers and as [api_key] in the payload. It is the only request of the
    call, appended to the log. *)
Theorem every_request_carries_the_key c log req :
  first_request (server.call_tool TAVILY_API_KEY net c) log = Some req ->
  fst (server.call_tool TAVILY_API_KEY net c log) = (log ++ [req])%list
  /\ httpx.method req = "POST"
  /\ In (httpx.url req) (List.map snd server.base_urls)
  /\ httpx.client_headers req
     = [("accept", "application/json");
        ("content-type", "application/json");
        ("Authorization", "Bearer " ++ TAVILY_API_KEY);
        ("user-agent", "tavily-mcp")]
  /\ payload_get "api_key" req = Some (JStr TAVILY_API_KEY).
Proof.
  unfold first_request.
  destruct c as [a | a | a | a]; cbn [server.call_tool];
    [ search_wire TAVILY_API_KEY net
    | extract_wire TAVILY_API_KEY net
    | crawl_wire TAVILY_API_KEY net
    | map_wire TAVILY_API_KEY net ];
    intros H;
    try (now apply nth_error_end in H);
    apply nth_error_last in H; subst req;
    repeat split; cbn; tauto.
Qed.

End Wire.

(** ** The response models *)

Section Models.
Import pydantic.
Local Open Scope pydantic_scope.

Context `{FC : FloatCoercion}.
Context `{RC : server.ResultCheck}.

Lemma items_from_map {A : Type} (v : json -> result A) (dump : A -> json) i l :
  (forall x, v (dump x) = Ok x) ->
  items_from v i (List.map dump l) = Ok l.
Proof.
  intros Hv. revert i. induction l as [| x l IH]; intros i; [reflexivity |].
  cbn. now rewrite Hv, IH.
Qed.

Lemma items_from_Forall2 {A V : Type} (v : V -> result A) i l l' :
  items_from v i l = Ok l' -> Forall2 (fun x y => v x = Ok y) l l'.
Proof.
  revert i l'. induction l as [| x l IH]; intros i l'; cbn.
  - intros [= <-]. constructor.
  - intros H. apply ap_Ok_inv in H. destruct H as (f & tl & Hf & Htl & ->).
    destruct (v x) as [y |] eqn:Hx; [| discriminate].
    cbn in Hf. injection Hf as <-. constructor; [assumption | eauto].
Qed.

Lemma items_from_reports {A V : Type} (v : V -> result A) s l i x e :
  nth_error l i = Some x ->
  reports (v x) e ->
  reports (items_from v s l) (under (Idx (s + i)) e).
Proof.
  revert s i. induction l as [| y l IH]; intros s i; [now destruct i |].
  destruct i as [| i]; cbn [nth_error items_from].
  - intros [= ->] Hrep. apply reports_ap_l. rewrite Nat.add_0_r.
    destruct (v x) as [| errs]; cbn in *; [contradiction |].
    now apply in_map.
  - intros Hnth Hrep. apply reports_ap_r.
    rewrite <- Nat.add_succ_comm. now apply IH.
Qed.

Lemma required_str_inv name d s :
  required name str d = Ok s -> dict_get name d = Some (JStr s).
Proof.
  unfold required. destruct (dict_get name d) as [j |]; [| discriminate].
  destruct j; cbn; try discriminate. now intros [= ->].
Qed.

Lemma required_float_inv name d t f :
  dict_get name d = Some (JFloat t) -> required name float d = Ok f -> f = t.
Proof.
  unfold required. intros ->. cbn. now intros [= ->].
Qed.

Lemma required_list_inv {A : Type} name (v : json -> result A) d l' :
  required name (list_of v) d = Ok l' ->
  exists l, dict_get name d = Some (JList l)
            /\ Forall2 (fun x y => v x = Ok y) l l'.
Proof.
  unfold required. destruct (dict_get name d) as [j |]; [| discriminate].
  destruct j; cbn; try discriminate.
  destruct (items_from v 0 l) as [l0 |] eqn:H; [| discriminate].
  cbn. intros [= <-]. eexists. split; [reflexivity |].
  now apply items_from_Forall2 with (i := 0%nat).
Qed.

Lemma SearchImage_round_trip m :
  schemas.SearchImage.model_validate (schemas.SearchImage.model_dump m) = Ok m.
Proof.
  destruct m as [u [desc |]]; reflexivity.
Qed.

Lemma str_or_SearchImage_round_trip x :
  schemas.str_or_SearchImage (schemas.dump_str_or_SearchImage x) = Ok x.
Proof.
  destruct x as [s | m]; [reflexivity |].
  unfold schemas.str_or_SearchImage, schemas.dump_str_or_SearchImage.
  rewrite SearchImage_round_trip. now destruct m.
Qed.

Lemma SearchResult_round_trip m :
  schemas.SearchResult.model_validate (schemas.SearchResult.model_dump m) = Ok m.
Proof.
  destruct m as [t u c sc [pd |] [rc |]]; reflexivity.
Qed.

Lemma ExtractResult_round_trip m :
  schemas.ExtractResult.model_validate (schemas.ExtractResult.model_dump m) = Ok m.
Proof.
  destruct m as [u rc imgs].
  unfold schemas.ExtractResult.model_validate, schemas.ExtractResult.model_dump,
    schemas.model, required, json_strs.
  cbn. rewrite (items_from_map str JStr 0 imgs) by reflexivity. reflexivity.
Qed.

Lemma ExtractFailedResult_round_trip m :
  schemas.ExtractFailedResult.model_validate
    (schemas.ExtractFailedResult.model_dump m) = Ok m.
Proof.
  destruct m; reflexivity.
Qed.

Lemma CrawlResult_round_trip m :
  schemas.CrawlResult.model_validate (schemas.CrawlResult.model_dump m) = Ok m.
Proof.
  destruct m; reflexivity.
Qed.

(** X10: validating what [model_dump] produced gives the model back: for
    [TavilySearchResponse], with its results and images. *)
Theorem TavilySearchResponse_round_trip m :
  schemas.TavilySearchResponse.model_validate
    (schemas.TavilySearchResponse.model_dump m) = Ok m.
Proof.
  destruct m as [q ans imgs res rt ap].
  unfold schemas.TavilySearchResponse.model_validate,
    schemas.TavilySearchResponse.model_dump, schemas.model, required,
    with_default, arg, arg_default.
  cbn [dict_get String.eqb Ascii.eqb Bool.eqb
       schemas.TavilySearchResponse.query schemas.TavilySearchResponse.answer
       schemas.TavilySearchResponse.images schemas.TavilySearchResponse.results
       schemas.TavilySearchResponse.response_time
       schemas.TavilySearchResponse.auto_parameters].
  cbn [list_of].
  rewrite (items_from_map _ _ 0 res SearchResult_round_trip).
  destruct ans as [ans |], imgs as [imgs |], ap as [ap |]; cbn;
    rewrite ?(items_from_map _ _ 0 imgs str_or_SearchImage_round_trip);
    reflexivity.
Qed.

(** X11: validating what [model_dump] produced gives the model back: for
    [TavilyExtractResponse], with its two lists. *)
Theorem TavilyExtractResponse_round_trip m :
  schemas.TavilyExtractResponse.model_validate
    (schemas.TavilyExtractResponse.model_dump m) = Ok m.
Proof.
  destruct m as [res failed rt].
  unfold schemas.TavilyExtractResponse.model_validate,
    schemas.TavilyExtractResponse.model_dump, schemas.model, required.
  cbn.
  rewrite (items_from_map _ _ 0 res ExtractResult_round_trip).
  rewrite (items_from_map _ _ 0 failed ExtractFailedResult_round_trip).
  reflexivity.
Qed.

(** X12: validating what [model_dump] produced gives the model back: for
    [TavilyCrawlResponse], with its results. *)
Theorem TavilyCrawlResponse_round_trip m :
  schemas.TavilyCrawlResponse.model_validate
    (schemas.TavilyCrawlResponse.model_dump m) = Ok m.
Proof.
  destruct m as [b res rt].
  unfold schemas.TavilyCrawlResponse.model_validate,
    schemas.TavilyCrawlResponse.model_dump, schemas.model, required.
  cbn.
  rewrite (items_from_map _ _ 0 res CrawlResult_round_trip).
  reflexivity.
Qed.

(** X13: validating what [model_dump] produced gives the model back: for
    [TavilyMapResponse]. *)
Theorem TavilyMapResponse_round_trip m :
  schemas.TavilyMapResponse.model_validate
    (schemas.TavilyMapResponse.model_dump m) = Ok m.
Proof.
  destruct m as [b res rt].
  unfold schemas.TavilyMapResponse.model_validate,
    schemas.TavilyMapResponse.model_dump, schemas.model, required,
    json_strs.
  cbn.
  rewrite (items_from_map str JStr 0 res) by reflexivity.
  reflexivity.
Qed.

End Models.

(** ** What the validating tools return *)

Ltac invert_fields H :=
  repeat (apply ap_Ok_inv in H;
          let f := fresh "f" in
          let x := fresh "x" in
          let Hx := fresh "Hx" in
          let Hm := fresh "Hm" in
          destruct H as (f & x & H & Hx & Hm));
  injection H as <-; subst.

Section Responses.
Import pydantic.
Local Open Scope pydantic_scope.

Context `{FC : FloatCoercion}.
Context `{RC : server.ResultCheck}.
Variable TAVILY_API_KEY : string.
Variable net : network.

#[local] Abbreviation tavily_search := (server.tavily_search TAVILY_API_KEY net).
#[local] Abbreviation tavily_crawl := (server.tavily_crawl TAVILY_API_KEY net).
#[local] Abbreviation tavily_map := (server.tavily_map TAVILY_API_KEY net).

Lemma reports_at_loc {A : Type} k (r : result A) e :
  reports r e -> reports (at_loc k r) (under k e).
Proof.
  destruct r as [| errs]; cbn; [tauto | apply in_map].
Qed.

Lemma Forall2_str l l' :
  Forall2 (fun x y => str x = Ok y) l l' -> l = List.map JStr l'.
Proof.
  induction 1 as [| x y l l' Hxy _ IH]; [reflexivity |].
  destruct x; try discriminate. injection Hxy as ->. cbn. now rewrite IH.
Qed.

Lemma Forall2_map_eq {A B C : Type} (v : A -> result B) (f : B -> C) (g : A -> C)
      l l' :
  (forall x y, v x = Ok y -> f y = g x) ->
  Forall2 (fun x y => v x = Ok y) l l' -> List.map f l' = List.map g l.
Proof.
  intros Hfg. induction 1 as [| x y l l' Hxy _ IH]; [reflexivity |].
  cbn. now rewrite IH, (Hfg x y Hxy).
Qed.

Lemma CrawlResult_validated_is_restricted x y :
  schemas.CrawlResult.model_validate x = Ok y ->
  schemas.CrawlResult.model_dump y = restrict_json ["url"; "raw_content"] x.
Proof.
  unfold schemas.CrawlResult.model_validate, schemas.model.
  destruct x as [| | | | | | d]; try discriminate.
  intros H. invert_fields H.
  match goal with
  | Hu : required "url" _ _ = _, Hr : required "raw_content" _ _ = _ |- _ =>
    apply required_str_inv in Hu; apply required_str_inv in Hr;
      unfold restrict_json, restrict; cbn [flat_map]; rewrite Hu, Hr
  end.
  reflexivity.
Qed.

Lemma SearchResult_validated_url x y :
  schemas.SearchResult.model_validate x = Ok y ->
  entry_url (schemas.SearchResult.model_dump y) = entry_url x.
Proof.
  unfold schemas.SearchResult.model_validate, schemas.model.
  destruct x as [| | | | | | d]; try discriminate.
  intros H. invert_fields H.
  match goal with
  | Hu : required "url" _ _ = _ |- _ =>
    apply required_str_inv in Hu; cbn [entry_url]; rewrite Hu
  end.
  reflexivity.
Qed.

(** X14: when the [i]-th entry of [results] in a search body violates
    [SearchResult], the call raises a [ValidationError] that reports the
    violation under [results], the index [i] and the location inside the
    entry. *)
Theorem search_result_error_is_located a log req response d l i entry e :
  first_request (tavily_search a) log = Some req ->
  net req = inr response ->
  httpx.is_success response = true ->
  httpx.body response = Some (JDict d) ->
  dict_get "results" d = Some (JList l) ->
  nth_error l i = Some entry ->
  reports (schemas.SearchResult.model_validate entry) e ->
  exists errs,
    tavily_search a log = ((log ++ [req])%list, inl (ValidationError errs))
    /\ In (mkError (err_type e) (Key "results" :: Idx i :: err_loc e)) errs.
Proof.
  intros Hreq Hnet Hs Hb Hres Hnth Hrep.
  rewrite (tavily_search_on_success _ _ _ _ _ _ Hnet Hs Hb a Hreq).
  unfold checked.
  assert (H : reports (schemas.TavilySearchResponse.model_validate (JDict d))
                      (under (Key "results") (under (Idx i) e))).
  { unfold schemas.TavilySearchResponse.model_validate, schemas.model.
    do 2 apply reports_ap_l. apply reports_ap_r.
    unfold required. rewrite Hres. apply reports_at_loc.
    exact (items_from_reports _ 0 l i entry e Hnth Hrep). }
  destruct (schemas.TavilySearchResponse.model_validate (JDict d)) as [| errs];
    [contradiction |].
  now exists errs.
Qed.

(** X15: a success body that is JSON but not an object makes [tavily-search],
    [tavily-crawl] and [tavily-map] raise a [ValidationError] with the single
    error [model_type]. *)
Theorem non_object_body_is_rejected log req response j :
  net req = inr response ->
  httpx.is_success response = true ->
  httpx.body response = Some j ->
  (forall d, j <> JDict d) ->
  (forall a, first_request (tavily_search a) log = Some req ->
             tavily_search a log
             = ((log ++ [req])%list,
                inl (ValidationError [mkError "model_type" []])))
  /\ (forall a, first_request (tavily_crawl a) log = Some req ->
                tavily_crawl a log
                = ((log ++ [req])%list,
                   inl (ValidationError [mkError "model_type" []])))
  /\ (forall a, first_request (tavily_map a) log = Some req ->
                tavily_map a log
                = ((log ++ [req])%list,
                   inl (ValidationError [mkError "model_type" []]))).
Proof.
  intros Hnet Hs Hb Hj.
  repeat split; intros a Hreq;
    [ rewrite (tavily_search_on_success _ _ _ _ _ _ Hnet Hs Hb a Hreq)
    | rewrite (tavily_crawl_on_success _ _ _ _ _ _ Hnet Hs Hb a Hreq)
    | rewrite (tavily_map_on_success _ _ _ _ _ _ Hnet Hs Hb a Hreq) ];
    destruct j; try reflexivity; now destruct (Hj d).
Qed.

(** X17: what [tavily-map] returns for a body whose [response_time] is a float is
    the body cut down to the three declared keys, in declaration order, with
    the values unchanged. *)
Theorem tavily_map_returns_declared_part a log req response d t returned :
  first_request (tavily_map a) log = Some req ->
  net req = inr response ->
  httpx.is_success response = true ->
  httpx.body response = Some (JDict d) ->
  dict_get "response_time" d = Some (JFloat t) ->
  snd (tavily_map a log) = inr returned ->
  returned = JDict (restrict schemas.TavilyMapResponse.field_names d).
Proof.
  intros Hreq Hnet Hs Hb Ht.
  rewrite (tavily_map_on_success _ _ _ _ _ _ Hnet Hs Hb a Hreq).
  unfold checked. cbn [snd].
  destruct (schemas.TavilyMapResponse.model_validate (JDict d)) as [m |] eqn:Hm;
    [| discriminate].
  intros [= <-].
  unfold schemas.TavilyMapResponse.model_validate, schemas.model in Hm.
  invert_fields Hm.
  match goal with
  | Hb' : required "base_url" _ _ = _,
    Hr : required "results" _ _ = _,
    Hf : required "response_time" _ _ = _ |- _ =>
    apply required_str_inv in Hb';
      apply required_list_inv in Hr; destruct Hr as (l & Hl & Hall);
      apply Forall2_str in Hall;
      apply (required_float_inv _ _ _ _ Ht) in Hf;
      unfold restrict, schemas.TavilyMapResponse.field_names;
      cbn [flat_map]; rewrite Hb', Hl, Ht; subst
  end.
  reflexivity.
Qed.

(** X18: what [tavily-crawl] returns for a body whose [response_time] is a float
    is the body cut down to the three declared keys, each entry of [results]
    cut down to [url] and [raw_content], in the order upstream gave them. *)
Theorem tavily_crawl_returns_declared_part a log req response d t returned :
  first_request (tavily_crawl a) log = Some req ->
  net req = inr response ->
  httpx.is_success response = true ->
  httpx.body response = Some (JDict d) ->
  dict_get "response_time" d = Some (JFloat t) ->
  snd (tavily_crawl a log) = inr returned ->
  exists l,
    dict_get "results" d = Some (JList l)
    /\ returned
       = JDict (restrict ["base_url"] d
                ++ [("results",
                     JList (List.map (restrict_json ["url"; "raw_content"]) l))]
                ++ restrict ["response_time"] d)%list.
Proof.
  intros Hreq Hnet Hs Hb Ht.
  rewrite (tavily_crawl_on_success _ _ _ _ _ _ Hnet Hs Hb a Hreq).
  unfold checked. cbn [snd].
  destruct (schemas.TavilyCrawlResponse.model_validate (JDict d)) as [m |] eqn:Hm;
    [| discriminate].
  intros [= <-].
  unfold schemas.TavilyCrawlResponse.model_validate, schemas.model in Hm.
  invert_fields Hm.
  match goal with
  | Hb' : required "base_url" _ _ = _,
    Hr : required "results" _ _ = _,
    Hf : required "response_time" _ _ = _ |- _ =>
    apply required_str_inv in Hb';
      apply required_list_inv in Hr; destruct Hr as (l & Hl & Hall);
      apply (Forall2_map_eq _ schemas.CrawlResult.model_dump
                            (restrict_json ["url"; "raw_content"]) _ _
                            CrawlResult_validated_is_restricted) in Hall;
      apply (required_float_inv _ _ _ _ Ht) in Hf;
      exists l; split; [exact Hl |];
      unfold restrict, schemas.TavilyCrawlResponse.model_dump;
      cbn [flat_map app schemas.TavilyCrawlResponse.base_url
           schemas.TavilyCrawlResponse.results
           schemas.TavilyCrawlResponse.response_time];
      rewrite Hb', Ht, Hall; subst
  end.
  reflexivity.
Qed.

(** X19: [tavily-search] returns as many results as upstream gave, in the same
    order and with the same [url] each, and every returned result has
    exactly the six declared keys. *)
Theorem tavily_search_keeps_results_in_order a log req response d returned :
  first_request (tavily_search a) log = Some req ->
  net req = inr response ->
  httpx.is_success response = true ->
  httpx.body response = Some (JDict d) ->
  snd (tavily_search a log) = inr returned ->
  List.map entry_url (entries "results" returned)
  = List.map entry_url (entries "results" (JDict d))
  /\ Forall (fun e => exists de, e = JDict de
                                 /\ keys de = schemas.SearchResult.field_names)
            (entries "results" returned).
Proof.
  intros Hreq Hnet Hs Hb.
  rewrite (tavily_search_on_success _ _ _ _ _ _ Hnet Hs Hb a Hreq).
  unfold checked. cbn [snd].
  destruct (schemas.TavilySearchResponse.model_validate (JDict d)) as [m |] eqn:Hm;
    [| discriminate].
  intros [= <-].
  unfold schemas.TavilySearchResponse.model_validate, schemas.model in Hm.
  invert_fields Hm.
  match goal with
  | Hr : required "results" _ _ = _ |- _ =>
    apply required_list_inv in Hr; destruct Hr as (l & Hl & Hall)
  end.
  unfold entries, field. rewrite Hl.
  cbn [schemas.TavilySearchResponse.model_dump dict_get String.eqb Ascii.eqb
       Bool.eqb schemas.TavilySearchResponse.results].
  split.
  - rewrite List.map_map.
    exact (Forall2_map_eq _ (fun y => entry_url (schemas.SearchResult.model_dump y))
                          entry_url _ _ SearchResult_validated_url Hall).
  - apply Forall_forall. intros e He. apply in_map_iff in He.
    destruct He as (y & <- & _). eexists. split; reflexivity.
Qed.

Lemma checked_reports {M : Type} (model_validate : json -> result M)
      (model_dump : M -> json) j e log :
  reports (model_validate j) e ->
  exists errs,
    (log : list httpx.Request, checked model_validate model_dump j)
    = (log, inl (ValidationError errs))
    /\ In e errs.
Proof.
  unfold checked. destruct (model_validate j) as [m | errs]; [contradiction |].
  intros Hin. now exists errs.
Qed.

(** X16: every required field that a success body lacks is reported as missing
    in the [ValidationError] the call raises, whatever else is wrong with
    the body: for [tavily-search] those are [query], [results] and
    [response_time], for [tavily-crawl] and [tavily-map] the three fields. *)
Theorem every_missing_required_field_is_reported log req response d k :
  net req = inr response ->
  httpx.is_success response = true ->
  httpx.body response = Some (JDict d) ->
  dict_get k d = None ->
  (forall a, In k ["query"; "results"; "response_time"] ->
             first_request (tavily_search a) log = Some req ->
             exists errs,
               tavily_search a log
               = ((log ++ [req])%list, inl (ValidationError errs))
               /\ In (mkError "missing" [Key k]) errs)
  /\ (forall a, In k schemas.TavilyCrawlResponse.field_names ->
                first_request (tavily_crawl a) log = Some req ->
                exists errs,
                  tavily_crawl a log
                  = ((log ++ [req])%list, inl (ValidationError errs))
                  /\ In (mkError "missing" [Key k]) errs)
  /\ (forall a, In k schemas.TavilyMapResponse.field_names ->
                first_request (tavily_map a) log = Some req ->
                exists errs,
                  tavily_map a log
                  = ((log ++ [req])%list, inl (ValidationError errs))
                  /\ In (mkError "missing" [Key k]) errs).
Proof.
  intros Hnet Hs Hb Hk.
  repeat split; intros a Hin Hreq;
    [ rewrite (tavily_search_on_success _ _ _ _ _ _ Hnet Hs Hb a Hreq)
    | rewrite (tavily_crawl_on_success _ _ _ _ _ _ Hnet Hs Hb a Hreq)
    | rewrite (tavily_map_on_success _ _ _ _ _ _ Hnet Hs Hb a Hreq) ];
    apply checked_reports;
    cbn in Hin; repeat (destruct Hin as [<- | Hin]); try contradiction;
      unfold schemas.TavilySearchResponse.model_validate,
        schemas.TavilyCrawlResponse.model_validate,
        schemas.TavilyMapResponse.model_validate, schemas.model;
      repeat first [ apply reports_ap_r; now apply required_absent
                   | apply reports_ap_l ].
Qed.

End Responses.

(** ** Other answers of the network *)

Section Answers.
Context `{FC : pydantic.FloatCoercion}.
Context `{RC : server.ResultCheck}.
Variable TAVILY_API_KEY : string.
Variable net : network.

#[local] Abbreviation call_tool := (server.call_tool TAVILY_API_KEY net).

(** X20: whatever tool is called, a status below 200 or above 299 other than 401
    and 429 makes the call raise [HTTPStatusError] with the response; the
    body is not read. *)
Theorem status_outside_2xx_raises_HTTPStatusError c log req response :
  first_request (call_tool c) log = Some req ->
  net req = inr response ->
  httpx.status_code response < 200 \/ 299 < httpx.status_code response ->
  httpx.status_code response <> 401 ->
  httpx.status_code response <> 429 ->
  call_tool c log = ((log ++ [req])%list, inl (HTTPStatusError response)).
Proof.
  intros Hreq Hnet Hrange H401 H429.
  apply other_status_raises_HTTPStatusError; try assumption.
  unfold httpx.is_success.
  destruct (Z.leb_spec 200 (httpx.status_code response)),
    (Z.leb_spec (httpx.status_code response) 299); cbn; try reflexivity; lia.
Qed.

(** X21: whatever tool is called, when [client.post] fails the failure is raised
    as it is, after that one attempt. *)
Theorem transport_failure_raises_RequestError c log req msg :
  first_request (call_tool c) log = Some req ->
  net req = inl msg ->
  call_tool c log = ((log ++ [req])%list, inl (RequestError msg)).
Proof.
  apply transport_failure_propagates.
Qed.

(** X22: whatever tool is called, a success response whose body is text but
    not a JSON document makes the call raise [JSONDecodeError], and one
    whose body is not text at all makes it raise [UnicodeDecodeError], both
    after the one request. *)
Theorem unparseable_body_raises_decode_error c log req response :
  first_request (call_tool c) log = Some req ->
  net req = inr response ->
  httpx.is_success response = true ->
  (httpx.content response = httpx.Malformed ->
   call_tool c log = ((log ++ [req])%list, inl JSONDecodeError))
  /\ (httpx.content response = httpx.Undecodable ->
      call_tool c log = ((log ++ [req])%list, inl UnicodeDecodeError)).
Proof.
  intros Hreq Hnet Hs.
  destruct (call_tool_run TAVILY_API_KEY net c log)
    as [[errs Hrun] | (endpoint & search_params & k & Hrun)].
  - rewrite (first_request_none _ _ _ Hrun) in Hreq. discriminate.
  - pose proof (first_request_sent _ _ _ _ _ Hrun Hreq). subst req.
    rewrite Hrun, Hnet. unfold http_outcome, finish. rewrite Hs.
    split; now intros ->.
Qed.

End Answers.

(** ** Startup with a credential *)

Section Serving.
Variable getenv : string -> option string.
Variable int : string -> option Z.

(** X23: with [TAVILY_API_KEY] set, importing server.py yields that key and
    registers the four tools in source order; each entry point then prints
    its line and serves them on its own transport, on host 0.0.0.0. *)
Theorem credential_registers_and_serves k :
  getenv "TAVILY_API_KEY" = Some k ->
  let srv := server.mkFastMCP "tavily-mcp" (server.tavily_port getenv int)
                              "0.0.0.0"
                              ["tavily-search"; "tavily-extract"; "tavily-crawl";
                               "tavily-map"] in
  server.import_server getenv int server.started
  = (server.mkProcess [] (Some srv) None, inr k)
  /\ server.run_sse getenv int server.started
     = (server.mkProcess ["Running the server using the transport sse"]
                         (Some srv) (Some "sse"), inr tt)
  /\ server.run_stdio getenv int server.started
     = (server.mkProcess ["Running the server using the transport stdio"]
                         (Some srv) (Some "stdio"), inr tt).
Proof.
  intros Hkey.
  unfold server.run_sse, server.run_stdio, server.import_server.
  rewrite Hkey. repeat split.
Qed.

(** The port of the server is the integer [TAVILY_MCP_PORT] parses to, and
    8000 when the variable is absent or does not parse. *)
Lemma port_falls_back_to_8000 :
  (getenv "TAVILY_MCP_PORT" = None -> server.tavily_port getenv int = 8000)
  /\ (forall s, getenv "TAVILY_MCP_PORT" = Some s -> int s = None ->
                server.tavily_port getenv int = 8000)
  /\ (forall s n, getenv "TAVILY_MCP_PORT" = Some s -> int s = Some n ->
                  server.tavily_port getenv int = n).
Proof.
  unfold server.tavily_port. repeat split.
  - now intros ->.
  - now intros s -> ->.
  - now intros s n -> ->.
Qed.

End Serving.

(** ** The further properties at the sample calls *)

Lemma every_request_carries_the_key_witness :
  httpx.url Samples.crawl_request = "https://api.tavily.com/crawl"
  /\ payload_get "api_key" Samples.crawl_request = Some (JStr Samples.key).
Proof.
  destruct (every_request_carries_the_key
              (FC := strict_floats) (RC := Samples.messages) Samples.key
              (always (Samples.ok Samples.crawl_body))
              (server.call_tavily_crawl Samples.crawl_args) []
              Samples.crawl_request eq_refl) as (_ & _ & _ & _ & Hkey).
  split; [reflexivity | exact Hkey].
Defined.

Lemma search_result_error_is_located_witness :
  exists errs,
    server.tavily_search
      (FC := strict_floats) (RC := Samples.messages) Samples.key
      (always (Samples.ok (JDict Samples.search_body_second_off)))
      Samples.search_args []
    = ([Samples.search_request], inl (ValidationError errs))
    /\ In (pydantic.mkError "missing"
             [pydantic.Key "results"; pydantic.Idx 1; pydantic.Key "url"]) errs.
Proof.
  apply (search_result_error_is_located
           (FC := strict_floats) (RC := Samples.messages) Samples.key
           (always (Samples.ok (JDict Samples.search_body_second_off)))
           Samples.search_args [] Samples.search_request
           (Samples.ok (JDict Samples.search_body_second_off))
           Samples.search_body_second_off Samples.results_second_off 1
           Samples.entry_without_url
           (pydantic.mkError "missing" [pydantic.Key "url"]));
    try reflexivity.
  cbn. tauto.
Defined.

Lemma non_object_body_is_rejected_witness :
  server.tavily_map (FC := strict_floats) (RC := Samples.messages) Samples.key
                    (always (Samples.ok (JList []))) Samples.map_args []
  = ([Samples.map_request],
     inl (ValidationError [pydantic.mkError "model_type" []])).
Proof.
  destruct (non_object_body_is_rejected
              (FC := strict_floats) (RC := Samples.messages) Samples.key
              (always (Samples.ok (JList []))) [] Samples.map_request
              (Samples.ok (JList [])) (JList []) eq_refl eq_refl eq_refl
              ltac:(discriminate)) as (_ & _ & Hmap).
  exact (Hmap Samples.map_args eq_refl).
Defined.

Lemma tavily_map_returns_declared_part_witness :
  JDict [("base_url", JStr "https://a.example");
         ("results", JList [JStr "https://a.example/docs"]);
         ("response_time", JFloat Samples.half)]
  = JDict (restrict schemas.TavilyMapResponse.field_names Samples.map_body_dict).
Proof.
  apply (tavily_map_returns_declared_part
           (FC := strict_floats) (RC := Samples.messages) Samples.key
           (always (Samples.ok Samples.map_body)) Samples.map_args []
           Samples.map_request (Samples.ok Samples.map_body)
           Samples.map_body_dict Samples.half);
    reflexivity.
Defined.

Lemma tavily_crawl_returns_declared_part_witness :
  exists l,
    dict_get "results" Samples.crawl_body_dict = Some (JList l)
    /\ JDict [("base_url", JStr "https://a.example");
              ("results",
               JList [JDict [("url", JStr "https://a.example/docs");
                             ("raw_content", JStr "text")]]);
              ("response_time", JFloat Samples.half)]
       = JDict (restrict ["base_url"] Samples.crawl_body_dict
                ++ [("results",
                     JList (List.map (restrict_json ["url"; "raw_content"]) l))]
                ++ restrict ["response_time"] Samples.crawl_body_dict)%list.
Proof.
  apply (tavily_crawl_returns_declared_part
           (FC := strict_floats) (RC := Samples.messages) Samples.key
           (always (Samples.ok Samples.crawl_body)) Samples.crawl_args []
           Samples.crawl_request (Samples.ok Samples.crawl_body)
           Samples.crawl_body_dict Samples.half);
    reflexivity.
Defined.

Lemma tavily_search_keeps_results_in_order_witness :
  List.map entry_url
           (entries "results"
              (JDict [("query", JStr "rocq prover");
                      ("answer", JNull);
                      ("images", JNull);
                      ("results",
                       JList [JDict [("title", JStr "Rocq");
                                     ("url", JStr "https://rocq-prover.org");
                                     ("content", JStr "The Rocq Prover");
                                     ("score", JFloat Samples.half);
                                     ("published_date", JNull);
                                     ("raw_content", JNull)]]);
                      ("response_time", JFloat Samples.half);
                      ("auto_parameters", JNull)]))
  = List.map entry_url (entries "results" (JDict Samples.search_body_dict)).
Proof.
  apply (tavily_search_keeps_results_in_order
           (FC := strict_floats) (RC := Samples.messages) Samples.key
           (always (Samples.ok Samples.search_body)) Samples.search_args []
           Samples.search_request (Samples.ok Samples.search_body)
           Samples.search_body_dict);
    reflexivity.
Defined.

Lemma every_missing_required_field_is_reported_witness :
  exists errs,
    server.tavily_crawl (FC := strict_floats) (RC := Samples.messages) Samples.key
                        (always (Samples.ok (JDict []))) Samples.crawl_args []
    = ([Samples.crawl_request], inl (ValidationError errs))
    /\ In (pydantic.mkError "missing" [pydantic.Key "base_url"]) errs.
Proof.
  destruct (every_missing_required_field_is_reported
              (FC := strict_floats) (RC := Samples.messages) Samples.key
              (always (Samples.ok (JDict []))) [] Samples.crawl_request
              (Samples.ok (JDict [])) [] "base_url"
              eq_refl eq_refl eq_refl eq_refl) as (_ & Hcrawl & _).
  apply (Hcrawl Samples.crawl_args); [now left | reflexivity].
Defined.

Lemma status_outside_2xx_raises_HTTPStatusError_witness :
  server.call_tool (FC := strict_floats) (RC := Samples.messages) Samples.key (always Samples.server_error)
                   (server.call_tavily_extract Samples.extract_args) []
  = ([Samples.extract_request], inl (HTTPStatusError Samples.server_error)).
Proof.
  apply (status_outside_2xx_raises_HTTPStatusError
           (FC := strict_floats) (RC := Samples.messages) Samples.key (always Samples.server_error)
           (server.call_tavily_extract Samples.extract_args) []
           Samples.extract_request Samples.server_error);
    try reflexivity; cbn; lia.
Defined.

Lemma transport_failure_raises_RequestError_witness :
  server.call_tool (FC := strict_floats) (RC := Samples.messages) Samples.key Samples.refused
                   (server.call_tavily_search Samples.search_args) []
  = ([Samples.search_request], inl (RequestError "connection refused")).
Proof.
  apply (transport_failure_raises_RequestError
           (FC := strict_floats) (RC := Samples.messages) Samples.key Samples.refused
           (server.call_tavily_search Samples.search_args) []
           Samples.search_request "connection refused");
    reflexivity.
Defined.

Lemma unparseable_body_raises_decode_error_witness :
  server.call_tool (FC := strict_floats) (RC := Samples.messages) Samples.key (always Samples.not_json)
                   (server.call_tavily_extract Samples.extract_args) []
  = ([Samples.extract_request], inl JSONDecodeError)
  /\ server.call_tool (FC := strict_floats) (RC := Samples.messages) Samples.key (always Samples.not_text)
                      (server.call_tavily_search Samples.search_args) []
     = ([Samples.search_request], inl UnicodeDecodeError).
Proof.
  split.
  - apply (unparseable_body_raises_decode_error
             (FC := strict_floats) (RC := Samples.messages) Samples.key (always Samples.not_json)
             (server.call_tavily_extract Samples.extract_args) []
             Samples.extract_request Samples.not_json);
      reflexivity.
  - apply (unparseable_body_raises_decode_error
             (FC := strict_floats) (RC := Samples.messages) Samples.key (always Samples.not_text)
             (server.call_tavily_search Samples.search_args) []
             Samples.search_request Samples.not_text);
      reflexivity.
Defined.

Lemma credential_registers_and_serves_witness :
  server.callable_tools
    (fst (server.run_stdio Samples.key_environ Samples.int_never server.started))
  = ["tavily-search"; "tavily-extract"; "tavily-crawl"; "tavily-map"].
Proof.
  destruct (credential_registers_and_serves
              Samples.key_environ Samples.int_never Samples.key eq_refl)
    as (_ & _ & Hstdio).
  rewrite Hstdio. reflexivity.
Defined.
